(** * ClawJobsAgent: a shallow embedding of [agent.py]

    The agent is a polling client of a remote marketplace.  Every method of
    [ClawJobsAgent] is transcribed below as a computation in a small
    state-and-exception monad over a [world]: the fields of the agent object,
    the state file on disk, the chronological trace of what the process did
    (HTTP exchanges, printed lines, sleeps) and the machine's clock as
    [time.sleep] meets it.  The remote service together with the [requests]
    library is an oracle [net], arbitrary in every theorem.

    Conventions of the model:
    - a Python [str] is a list of Unicode code points; [lower] and [repr]
      follow CPython 3.11, with its tables (Unicode 14.0.0);
    - a JSON number is an integer (floats are not modelled);
    - the operating system serves the calls made to it: the state file is
      read and written, and a delay is slept unless [time.sleep] refuses it;
    - [print] produces a structured [message] carrying the interpolated
      values, not the formatted line. *)

From Stdlib Require Import List NArith ZArith Bool Lia.
From Stdlib.Strings Require Import Byte.
Import ListNotations.
Set Warnings "-via-type-remapping,-via-type-mismatch,-register-all".

(** ** Text *)

(** A Python [str] is a sequence of Unicode code points. *)
Definition char : Type := N.
Definition string : Type := list char.

(** String literals are read as UTF-8, one code point per character. *)
Inductive literal : Set :=
| LitEnd
| LitChar (c : N) (rest : literal).

Definition continuation (b : byte) : option N :=
  let n := Byte.to_N b in
  if ((128 <=? n) && (n <? 192))%N then Some (n - 128)%N else None.

Fixpoint utf8_decode (l : list byte) : option literal :=
  match l with
  | [] => Some LitEnd
  | b :: l1 =>
      let n := Byte.to_N b in
      if (n <? 128)%N then option_map (LitChar n) (utf8_decode l1)
      else if (n <? 192)%N then None
      else if (n <? 224)%N then
        match l1 with
        | b1 :: l2 =>
            match continuation b1, utf8_decode l2 with
            | Some c1, Some rest => Some (LitChar ((n - 192) * 64 + c1)%N rest)
            | _, _ => None
            end
        | _ => None
        end
      else if (n <? 240)%N then
        match l1 with
        | b1 :: b2 :: l3 =>
            match continuation b1, continuation b2, utf8_decode l3 with
            | Some c1, Some c2, Some rest =>
                Some (LitChar (((n - 224) * 64 + c1) * 64 + c2)%N rest)
            | _, _, _ => None
            end
        | _ => None
        end
      else if (n <? 248)%N then
        match l1 with
        | b1 :: b2 :: b3 :: l4 =>
            match continuation b1, continuation b2, continuation b3, utf8_decode l4 with
            | Some c1, Some c2, Some c3, Some rest =>
                Some (LitChar ((((n - 240) * 64 + c1) * 64 + c2) * 64 + c3)%N rest)
            | _, _, _, _ => None
            end
        | _ => None
        end
      else None
  end.

Definition bytes_of (ns : list N) : option (list byte) :=
  fold_right (fun n acc => match Byte.of_N n, acc with
                           | Some b, Some l => Some (b :: l)
                           | _, _ => None
                           end) (Some []) ns.

Definition utf8_char (c : N) : list N :=
  (if c <? 128 then [c]
   else if c <? 2048 then [192 + c / 64; 128 + c mod 64]
   else if c <? 65536 then [224 + c / 4096; 128 + (c / 64) mod 64; 128 + c mod 64]
   else [240 + c / 262144; 128 + (c / 4096) mod 64; 128 + (c / 64) mod 64; 128 + c mod 64])%N.

Fixpoint utf8_encode (s : literal) : option (list byte) :=
  match s with
  | LitEnd => Some []
  | LitChar c rest =>
      match bytes_of (utf8_char c), utf8_encode rest with
      | Some l, Some l' => Some (l ++ l')
      | _, _ => None
      end
  end.

Declare Scope string_scope.
Delimit Scope string_scope with string.
String Notation string utf8_decode utf8_encode
  (via literal mapping [[nil] => LitEnd, [cons] => LitChar]) : string_scope.
Local Open Scope string_scope.
Local Open Scope Z_scope.

Module Str.

(** [s == t] on two strings *)
Fixpoint eqb (s t : string) : bool :=
  match s, t with
  | [], [] => true
  | c :: s', d :: t' => (c =? d)%N && eqb s' t'
  | _, _ => false
  end.

(** [hay.startswith(s)] *)
Fixpoint prefix (s hay : string) : bool :=
  match s, hay with
  | [], _ => true
  | c :: s', d :: hay' => (c =? d)%N && prefix s' hay'
  | _ :: _, [] => false
  end.

End Str.

(** ** Python values and exceptions *)

(** Values that [json.load] / [response.json()] can produce, which are also
    the values the agent stores and passes around. *)
Inductive pyval : Type :=
| PNone
| PBool (b : bool)
| PInt (n : Z)
| PStr (s : string)
| PList (l : list pyval)
| PDict (d : list (string * pyval)).

(** The exception classes the code can meet; all derive from [Exception]. *)
Inductive exn : Type :=
| AttributeError
| KeyError
| IndexError
| TypeError
| ValueError
| OverflowError
| OSError
| JSONDecodeError
| RequestException.

Inductive result (A : Type) : Type :=
| Ok (a : A)
| Raise (e : exn).
Arguments Ok {A} a.
Arguments Raise {A} e.

Definition rbind {A B} (r : result A) (k : A -> result B) : result B :=
  match r with
  | Ok a => k a
  | Raise e => Raise e
  end.

Declare Scope result_scope.
Delimit Scope result_scope with result.
Notation "x <~ r ; k" := (rbind r (fun x => k))
  (at level 200, r at level 100, k at level 200, right associativity) : result_scope.

(** ** The Unicode tables of CPython 3.11 (Unicode 14.0.0) *)

Module Unicode.

(** The lowercase mappings of single characters beyond ASCII, as runs
    [(first, last, step, image of first)]: every [step]-th character from
    [first] to [last] is mapped, by the same shift. *)
Definition lowercase_runs : list (N * N * N * N) :=
  [(192, 214, 1, 224); (216, 222, 1, 248); (256, 302, 2, 257); (306, 310, 2, 307);
   (313, 327, 2, 314); (330, 374, 2, 331); (376, 376, 1, 255); (377, 381, 2, 378);
   (385, 385, 1, 595); (386, 388, 2, 387); (390, 390, 1, 596); (391, 391, 1, 392);
   (393, 394, 1, 598); (395, 395, 1, 396); (398, 398, 1, 477); (399, 399, 1, 601);
   (400, 400, 1, 603); (401, 401, 1, 402); (403, 403, 1, 608); (404, 404, 1, 611);
   (406, 406, 1, 617); (407, 407, 1, 616); (408, 408, 1, 409); (412, 412, 1, 623);
   (413, 413, 1, 626); (415, 415, 1, 629); (416, 420, 2, 417); (422, 422, 1, 640);
   (423, 423, 1, 424); (425, 425, 1, 643); (428, 428, 1, 429); (430, 430, 1, 648);
   (431, 431, 1, 432); (433, 434, 1, 650); (435, 437, 2, 436); (439, 439, 1, 658);
   (440, 440, 1, 441); (444, 444, 1, 445); (452, 452, 1, 454); (453, 453, 1, 454);
   (455, 455, 1, 457); (456, 456, 1, 457); (458, 458, 1, 460); (459, 475, 2, 460);
   (478, 494, 2, 479); (497, 497, 1, 499); (498, 500, 2, 499); (502, 502, 1, 405);
   (503, 503, 1, 447); (504, 542, 2, 505); (544, 544, 1, 414); (546, 562, 2, 547);
   (570, 570, 1, 11365); (571, 571, 1, 572); (573, 573, 1, 410); (574, 574, 1, 11366);
   (577, 577, 1, 578); (579, 579, 1, 384); (580, 580, 1, 649); (581, 581, 1, 652);
   (582, 590, 2, 583); (880, 882, 2, 881); (886, 886, 1, 887); (895, 895, 1, 1011);
   (902, 902, 1, 940); (904, 906, 1, 941); (908, 908, 1, 972); (910, 911, 1, 973);
   (913, 929, 1, 945); (931, 939, 1, 963); (975, 975, 1, 983); (984, 1006, 2, 985);
   (1012, 1012, 1, 952); (1015, 1015, 1, 1016); (1017, 1017, 1, 1010); (1018, 1018, 1, 1019);
   (1021, 1023, 1, 891); (1024, 1039, 1, 1104); (1040, 1071, 1, 1072); (1120, 1152, 2, 1121);
   (1162, 1214, 2, 1163); (1216, 1216, 1, 1231); (1217, 1229, 2, 1218); (1232, 1326, 2, 1233);
   (1329, 1366, 1, 1377); (4256, 4293, 1, 11520); (4295, 4295, 1, 11559);
   (4301, 4301, 1, 11565); (5024, 5103, 1, 43888); (5104, 5109, 1, 5112); (7312, 7354, 1, 4304);
   (7357, 7359, 1, 4349); (7680, 7828, 2, 7681); (7838, 7838, 1, 223); (7840, 7934, 2, 7841);
   (7944, 7951, 1, 7936); (7960, 7965, 1, 7952); (7976, 7983, 1, 7968); (7992, 7999, 1, 7984);
   (8008, 8013, 1, 8000); (8025, 8031, 2, 8017); (8040, 8047, 1, 8032); (8072, 8079, 1, 8064);
   (8088, 8095, 1, 8080); (8104, 8111, 1, 8096); (8120, 8121, 1, 8112); (8122, 8123, 1, 8048);
   (8124, 8124, 1, 8115); (8136, 8139, 1, 8050); (8140, 8140, 1, 8131); (8152, 8153, 1, 8144);
   (8154, 8155, 1, 8054); (8168, 8169, 1, 8160); (8170, 8171, 1, 8058); (8172, 8172, 1, 8165);
   (8184, 8185, 1, 8056); (8186, 8187, 1, 8060); (8188, 8188, 1, 8179); (8486, 8486, 1, 969);
   (8490, 8490, 1, 107); (8491, 8491, 1, 229); (8498, 8498, 1, 8526); (8544, 8559, 1, 8560);
   (8579, 8579, 1, 8580); (9398, 9423, 1, 9424); (11264, 11311, 1, 11312);
   (11360, 11360, 1, 11361); (11362, 11362, 1, 619); (11363, 11363, 1, 7549);
   (11364, 11364, 1, 637); (11367, 11371, 2, 11368); (11373, 11373, 1, 593);
   (11374, 11374, 1, 625); (11375, 11375, 1, 592); (11376, 11376, 1, 594);
   (11378, 11378, 1, 11379); (11381, 11381, 1, 11382); (11390, 11391, 1, 575);
   (11392, 11490, 2, 11393); (11499, 11501, 2, 11500); (11506, 11506, 1, 11507);
   (42560, 42604, 2, 42561); (42624, 42650, 2, 42625); (42786, 42798, 2, 42787);
   (42802, 42862, 2, 42803); (42873, 42875, 2, 42874); (42877, 42877, 1, 7545);
   (42878, 42886, 2, 42879); (42891, 42891, 1, 42892); (42893, 42893, 1, 613);
   (42896, 42898, 2, 42897); (42902, 42920, 2, 42903); (42922, 42922, 1, 614);
   (42923, 42923, 1, 604); (42924, 42924, 1, 609); (42925, 42925, 1, 620);
   (42926, 42926, 1, 618); (42928, 42928, 1, 670); (42929, 42929, 1, 647);
   (42930, 42930, 1, 669); (42931, 42931, 1, 43859); (42932, 42946, 2, 42933);
   (42948, 42948, 1, 42900); (42949, 42949, 1, 642); (42950, 42950, 1, 7566);
   (42951, 42953, 2, 42952); (42960, 42960, 1, 42961); (42966, 42968, 2, 42967);
   (42997, 42997, 1, 42998); (65313, 65338, 1, 65345); (66560, 66599, 1, 66600);
   (66736, 66771, 1, 66776); (66928, 66938, 1, 66967); (66940, 66954, 1, 66979);
   (66956, 66962, 1, 66995); (66964, 66965, 1, 67003); (68736, 68786, 1, 68800);
   (71840, 71871, 1, 71872); (93760, 93791, 1, 93792); (125184, 125217, 1, 125218)]%N.

(** The case-ignorable characters, as intervals. *)
Definition case_ignorable_ranges : list (N * N) :=
  [(39, 39); (46, 46); (58, 58); (94, 94); (96, 96); (168, 168); (173, 173); (175, 175);
   (180, 180); (183, 184); (688, 879); (884, 885); (890, 890); (900, 901); (903, 903);
   (1155, 1161); (1369, 1369); (1375, 1375); (1425, 1469); (1471, 1471); (1473, 1474);
   (1476, 1477); (1479, 1479); (1524, 1524); (1536, 1541); (1552, 1562); (1564, 1564);
   (1600, 1600); (1611, 1631); (1648, 1648); (1750, 1757); (1759, 1768); (1770, 1773);
   (1807, 1807); (1809, 1809); (1840, 1866); (1958, 1968); (2027, 2037); (2042, 2042);
   (2045, 2045); (2070, 2093); (2137, 2139); (2184, 2184); (2192, 2193); (2200, 2207);
   (2249, 2306); (2362, 2362); (2364, 2364); (2369, 2376); (2381, 2381); (2385, 2391);
   (2402, 2403); (2417, 2417); (2433, 2433); (2492, 2492); (2497, 2500); (2509, 2509);
   (2530, 2531); (2558, 2558); (2561, 2562); (2620, 2620); (2625, 2626); (2631, 2632);
   (2635, 2637); (2641, 2641); (2672, 2673); (2677, 2677); (2689, 2690); (2748, 2748);
   (2753, 2757); (2759, 2760); (2765, 2765); (2786, 2787); (2810, 2815); (2817, 2817);
   (2876, 2876); (2879, 2879); (2881, 2884); (2893, 2893); (2901, 2902); (2914, 2915);
   (2946, 2946); (3008, 3008); (3021, 3021); (3072, 3072); (3076, 3076); (3132, 3132);
   (3134, 3136); (3142, 3144); (3146, 3149); (3157, 3158); (3170, 3171); (3201, 3201);
   (3260, 3260); (3263, 3263); (3270, 3270); (3276, 3277); (3298, 3299); (3328, 3329);
   (3387, 3388); (3393, 3396); (3405, 3405); (3426, 3427); (3457, 3457); (3530, 3530);
   (3538, 3540); (3542, 3542); (3633, 3633); (3636, 3642); (3654, 3662); (3761, 3761);
   (3764, 3772); (3782, 3782); (3784, 3789); (3864, 3865); (3893, 3893); (3895, 3895);
   (3897, 3897); (3953, 3966); (3968, 3972); (3974, 3975); (3981, 3991); (3993, 4028);
   (4038, 4038); (4141, 4144); (4146, 4151); (4153, 4154); (4157, 4158); (4184, 4185);
   (4190, 4192); (4209, 4212); (4226, 4226); (4229, 4230); (4237, 4237); (4253, 4253);
   (4348, 4348); (4957, 4959); (5906, 5908); (5938, 5939); (5970, 5971); (6002, 6003);
   (6068, 6069); (6071, 6077); (6086, 6086); (6089, 6099); (6103, 6103); (6109, 6109);
   (6155, 6159); (6211, 6211); (6277, 6278); (6313, 6313); (6432, 6434); (6439, 6440);
   (6450, 6450); (6457, 6459); (6679, 6680); (6683, 6683); (6742, 6742); (6744, 6750);
   (6752, 6752); (6754, 6754); (6757, 6764); (6771, 6780); (6783, 6783); (6823, 6823);
   (6832, 6862); (6912, 6915); (6964, 6964); (6966, 6970); (6972, 6972); (6978, 6978);
   (7019, 7027); (7040, 7041); (7074, 7077); (7080, 7081); (7083, 7085); (7142, 7142);
   (7144, 7145); (7149, 7149); (7151, 7153); (7212, 7219); (7222, 7223); (7288, 7293);
   (7376, 7378); (7380, 7392); (7394, 7400); (7405, 7405); (7412, 7412); (7416, 7417);
   (7468, 7530); (7544, 7544); (7579, 7679); (8125, 8125); (8127, 8129); (8141, 8143);
   (8157, 8159); (8173, 8175); (8189, 8190); (8203, 8207); (8216, 8217); (8228, 8228);
   (8231, 8231); (8234, 8238); (8288, 8292); (8294, 8303); (8305, 8305); (8319, 8319);
   (8336, 8348); (8400, 8432); (11388, 11389); (11503, 11505); (11631, 11631); (11647, 11647);
   (11744, 11775); (11823, 11823); (12293, 12293); (12330, 12333); (12337, 12341);
   (12347, 12347); (12441, 12446); (12540, 12542); (40981, 40981); (42232, 42237);
   (42508, 42508); (42607, 42610); (42612, 42621); (42623, 42623); (42652, 42655);
   (42736, 42737); (42752, 42785); (42864, 42864); (42888, 42890); (42994, 42996);
   (43000, 43001); (43010, 43010); (43014, 43014); (43019, 43019); (43045, 43046);
   (43052, 43052); (43204, 43205); (43232, 43249); (43263, 43263); (43302, 43309);
   (43335, 43345); (43392, 43394); (43443, 43443); (43446, 43449); (43452, 43453);
   (43471, 43471); (43493, 43494); (43561, 43566); (43569, 43570); (43573, 43574);
   (43587, 43587); (43596, 43596); (43632, 43632); (43644, 43644); (43696, 43696);
   (43698, 43700); (43703, 43704); (43710, 43711); (43713, 43713); (43741, 43741);
   (43756, 43757); (43763, 43764); (43766, 43766); (43867, 43871); (43881, 43883);
   (44005, 44005); (44008, 44008); (44013, 44013); (64286, 64286); (64434, 64450);
   (65024, 65039); (65043, 65043); (65056, 65071); (65106, 65106); (65109, 65109);
   (65279, 65279); (65287, 65287); (65294, 65294); (65306, 65306); (65342, 65342);
   (65344, 65344); (65392, 65392); (65438, 65439); (65507, 65507); (65529, 65531);
   (66045, 66045); (66272, 66272); (66422, 66426); (67456, 67461); (67463, 67504);
   (67506, 67514); (68097, 68099); (68101, 68102); (68108, 68111); (68152, 68154);
   (68159, 68159); (68325, 68326); (68900, 68903); (69291, 69292); (69446, 69456);
   (69506, 69509); (69633, 69633); (69688, 69702); (69744, 69744); (69747, 69748);
   (69759, 69761); (69811, 69814); (69817, 69818); (69821, 69821); (69826, 69826);
   (69837, 69837); (69888, 69890); (69927, 69931); (69933, 69940); (70003, 70003);
   (70016, 70017); (70070, 70078); (70089, 70092); (70095, 70095); (70191, 70193);
   (70196, 70196); (70198, 70199); (70206, 70206); (70367, 70367); (70371, 70378);
   (70400, 70401); (70459, 70460); (70464, 70464); (70502, 70508); (70512, 70516);
   (70712, 70719); (70722, 70724); (70726, 70726); (70750, 70750); (70835, 70840);
   (70842, 70842); (70847, 70848); (70850, 70851); (71090, 71093); (71100, 71101);
   (71103, 71104); (71132, 71133); (71219, 71226); (71229, 71229); (71231, 71232);
   (71339, 71339); (71341, 71341); (71344, 71349); (71351, 71351); (71453, 71455);
   (71458, 71461); (71463, 71467); (71727, 71735); (71737, 71738); (71995, 71996);
   (71998, 71998); (72003, 72003); (72148, 72151); (72154, 72155); (72160, 72160);
   (72193, 72202); (72243, 72248); (72251, 72254); (72263, 72263); (72273, 72278);
   (72281, 72283); (72330, 72342); (72344, 72345); (72752, 72758); (72760, 72765);
   (72767, 72767); (72850, 72871); (72874, 72880); (72882, 72883); (72885, 72886);
   (73009, 73014); (73018, 73018); (73020, 73021); (73023, 73029); (73031, 73031);
   (73104, 73105); (73109, 73109); (73111, 73111); (73459, 73460); (78896, 78904);
   (92912, 92916); (92976, 92982); (92992, 92995); (94031, 94031); (94095, 94111);
   (94176, 94177); (94179, 94180); (110576, 110579); (110581, 110587); (110589, 110590);
   (113821, 113822); (113824, 113827); (118528, 118573); (118576, 118598); (119143, 119145);
   (119155, 119170); (119173, 119179); (119210, 119213); (119362, 119364); (121344, 121398);
   (121403, 121452); (121461, 121461); (121476, 121476); (121499, 121503); (121505, 121519);
   (122880, 122886); (122888, 122904); (122907, 122913); (122915, 122916); (122918, 122922);
   (123184, 123197); (123566, 123566); (123628, 123631); (125136, 125142); (125252, 125259);
   (127995, 127999); (917505, 917505); (917536, 917631); (917760, 917999)]%N.

(** The cased characters, as intervals. *)
Definition cased_ranges : list (N * N) :=
  [(65, 90); (97, 122); (170, 170); (181, 181); (186, 186); (192, 214); (216, 246); (248, 442);
   (444, 447); (452, 659); (661, 696); (704, 705); (736, 740); (837, 837); (880, 883);
   (886, 887); (890, 893); (895, 895); (902, 902); (904, 906); (908, 908); (910, 929);
   (931, 1013); (1015, 1153); (1162, 1327); (1329, 1366); (1376, 1416); (4256, 4293);
   (4295, 4295); (4301, 4301); (4304, 4346); (4349, 4351); (5024, 5109); (5112, 5117);
   (7296, 7304); (7312, 7354); (7357, 7359); (7424, 7615); (7680, 7957); (7960, 7965);
   (7968, 8005); (8008, 8013); (8016, 8023); (8025, 8025); (8027, 8027); (8029, 8029);
   (8031, 8061); (8064, 8116); (8118, 8124); (8126, 8126); (8130, 8132); (8134, 8140);
   (8144, 8147); (8150, 8155); (8160, 8172); (8178, 8180); (8182, 8188); (8305, 8305);
   (8319, 8319); (8336, 8348); (8450, 8450); (8455, 8455); (8458, 8467); (8469, 8469);
   (8473, 8477); (8484, 8484); (8486, 8486); (8488, 8488); (8490, 8493); (8495, 8500);
   (8505, 8505); (8508, 8511); (8517, 8521); (8526, 8526); (8544, 8575); (8579, 8580);
   (9398, 9449); (11264, 11492); (11499, 11502); (11506, 11507); (11520, 11557); (11559, 11559);
   (11565, 11565); (42560, 42605); (42624, 42653); (42786, 42887); (42891, 42894);
   (42896, 42954); (42960, 42961); (42963, 42963); (42965, 42969); (42997, 42998);
   (43000, 43002); (43824, 43866); (43868, 43880); (43888, 43967); (64256, 64262);
   (64275, 64279); (65313, 65338); (65345, 65370); (66560, 66639); (66736, 66771);
   (66776, 66811); (66928, 66938); (66940, 66954); (66956, 66962); (66964, 66965);
   (66967, 66977); (66979, 66993); (66995, 67001); (67003, 67004); (67456, 67456);
   (67459, 67461); (67463, 67504); (67506, 67514); (68736, 68786); (68800, 68850);
   (71840, 71903); (93760, 93823); (119808, 119892); (119894, 119964); (119966, 119967);
   (119970, 119970); (119973, 119974); (119977, 119980); (119982, 119993); (119995, 119995);
   (119997, 120003); (120005, 120069); (120071, 120074); (120077, 120084); (120086, 120092);
   (120094, 120121); (120123, 120126); (120128, 120132); (120134, 120134); (120138, 120144);
   (120146, 120485); (120488, 120512); (120514, 120538); (120540, 120570); (120572, 120596);
   (120598, 120628); (120630, 120654); (120656, 120686); (120688, 120712); (120714, 120744);
   (120746, 120770); (120772, 120779); (122624, 122633); (122635, 122654); (125184, 125251);
   (127280, 127305); (127312, 127337); (127344, 127369)]%N.

(** The characters [repr] escapes (not printable), as intervals. *)
Definition unprintable_ranges : list (N * N) :=
  [(0, 31); (127, 160); (173, 173); (888, 889); (896, 899); (907, 907); (909, 909); (930, 930);
   (1328, 1328); (1367, 1368); (1419, 1420); (1424, 1424); (1480, 1487); (1515, 1518);
   (1525, 1541); (1564, 1564); (1757, 1757); (1806, 1807); (1867, 1868); (1970, 1983);
   (2043, 2044); (2094, 2095); (2111, 2111); (2140, 2141); (2143, 2143); (2155, 2159);
   (2191, 2199); (2274, 2274); (2436, 2436); (2445, 2446); (2449, 2450); (2473, 2473);
   (2481, 2481); (2483, 2485); (2490, 2491); (2501, 2502); (2505, 2506); (2511, 2518);
   (2520, 2523); (2526, 2526); (2532, 2533); (2559, 2560); (2564, 2564); (2571, 2574);
   (2577, 2578); (2601, 2601); (2609, 2609); (2612, 2612); (2615, 2615); (2618, 2619);
   (2621, 2621); (2627, 2630); (2633, 2634); (2638, 2640); (2642, 2648); (2653, 2653);
   (2655, 2661); (2679, 2688); (2692, 2692); (2702, 2702); (2706, 2706); (2729, 2729);
   (2737, 2737); (2740, 2740); (2746, 2747); (2758, 2758); (2762, 2762); (2766, 2767);
   (2769, 2783); (2788, 2789); (2802, 2808); (2816, 2816); (2820, 2820); (2829, 2830);
   (2833, 2834); (2857, 2857); (2865, 2865); (2868, 2868); (2874, 2875); (2885, 2886);
   (2889, 2890); (2894, 2900); (2904, 2907); (2910, 2910); (2916, 2917); (2936, 2945);
   (2948, 2948); (2955, 2957); (2961, 2961); (2966, 2968); (2971, 2971); (2973, 2973);
   (2976, 2978); (2981, 2983); (2987, 2989); (3002, 3005); (3011, 3013); (3017, 3017);
   (3022, 3023); (3025, 3030); (3032, 3045); (3067, 3071); (3085, 3085); (3089, 3089);
   (3113, 3113); (3130, 3131); (3141, 3141); (3145, 3145); (3150, 3156); (3159, 3159);
   (3163, 3164); (3166, 3167); (3172, 3173); (3184, 3190); (3213, 3213); (3217, 3217);
   (3241, 3241); (3252, 3252); (3258, 3259); (3269, 3269); (3273, 3273); (3278, 3284);
   (3287, 3292); (3295, 3295); (3300, 3301); (3312, 3312); (3315, 3327); (3341, 3341);
   (3345, 3345); (3397, 3397); (3401, 3401); (3408, 3411); (3428, 3429); (3456, 3456);
   (3460, 3460); (3479, 3481); (3506, 3506); (3516, 3516); (3518, 3519); (3527, 3529);
   (3531, 3534); (3541, 3541); (3543, 3543); (3552, 3557); (3568, 3569); (3573, 3584);
   (3643, 3646); (3676, 3712); (3715, 3715); (3717, 3717); (3723, 3723); (3748, 3748);
   (3750, 3750); (3774, 3775); (3781, 3781); (3783, 3783); (3790, 3791); (3802, 3803);
   (3808, 3839); (3912, 3912); (3949, 3952); (3992, 3992); (4029, 4029); (4045, 4045);
   (4059, 4095); (4294, 4294); (4296, 4300); (4302, 4303); (4681, 4681); (4686, 4687);
   (4695, 4695); (4697, 4697); (4702, 4703); (4745, 4745); (4750, 4751); (4785, 4785);
   (4790, 4791); (4799, 4799); (4801, 4801); (4806, 4807); (4823, 4823); (4881, 4881);
   (4886, 4887); (4955, 4956); (4989, 4991); (5018, 5023); (5110, 5111); (5118, 5119);
   (5760, 5760); (5789, 5791); (5881, 5887); (5910, 5918); (5943, 5951); (5972, 5983);
   (5997, 5997); (6001, 6001); (6004, 6015); (6110, 6111); (6122, 6127); (6138, 6143);
   (6158, 6158); (6170, 6175); (6265, 6271); (6315, 6319); (6390, 6399); (6431, 6431);
   (6444, 6447); (6460, 6463); (6465, 6467); (6510, 6511); (6517, 6527); (6572, 6575);
   (6602, 6607); (6619, 6621); (6684, 6685); (6751, 6751); (6781, 6782); (6794, 6799);
   (6810, 6815); (6830, 6831); (6863, 6911); (6989, 6991); (7039, 7039); (7156, 7163);
   (7224, 7226); (7242, 7244); (7305, 7311); (7355, 7356); (7368, 7375); (7419, 7423);
   (7958, 7959); (7966, 7967); (8006, 8007); (8014, 8015); (8024, 8024); (8026, 8026);
   (8028, 8028); (8030, 8030); (8062, 8063); (8117, 8117); (8133, 8133); (8148, 8149);
   (8156, 8156); (8176, 8177); (8181, 8181); (8191, 8207); (8232, 8239); (8287, 8303);
   (8306, 8307); (8335, 8335); (8349, 8351); (8385, 8399); (8433, 8447); (8588, 8591);
   (9255, 9279); (9291, 9311); (11124, 11125); (11158, 11158); (11508, 11512); (11558, 11558);
   (11560, 11564); (11566, 11567); (11624, 11630); (11633, 11646); (11671, 11679);
   (11687, 11687); (11695, 11695); (11703, 11703); (11711, 11711); (11719, 11719);
   (11727, 11727); (11735, 11735); (11743, 11743); (11870, 11903); (11930, 11930);
   (12020, 12031); (12246, 12271); (12284, 12288); (12352, 12352); (12439, 12440);
   (12544, 12548); (12592, 12592); (12687, 12687); (12772, 12783); (12831, 12831);
   (42125, 42127); (42183, 42191); (42540, 42559); (42744, 42751); (42955, 42959);
   (42962, 42962); (42964, 42964); (42970, 42993); (43053, 43055); (43066, 43071);
   (43128, 43135); (43206, 43213); (43226, 43231); (43348, 43358); (43389, 43391);
   (43470, 43470); (43482, 43485); (43519, 43519); (43575, 43583); (43598, 43599);
   (43610, 43611); (43715, 43738); (43767, 43776); (43783, 43784); (43791, 43792);
   (43799, 43807); (43815, 43815); (43823, 43823); (43884, 43887); (44014, 44015);
   (44026, 44031); (55204, 55215); (55239, 55242); (55292, 63743); (64110, 64111);
   (64218, 64255); (64263, 64274); (64280, 64284); (64311, 64311); (64317, 64317);
   (64319, 64319); (64322, 64322); (64325, 64325); (64451, 64466); (64912, 64913);
   (64968, 64974); (64976, 65007); (65050, 65055); (65107, 65107); (65127, 65127);
   (65132, 65135); (65141, 65141); (65277, 65280); (65471, 65473); (65480, 65481);
   (65488, 65489); (65496, 65497); (65501, 65503); (65511, 65511); (65519, 65531);
   (65534, 65535); (65548, 65548); (65575, 65575); (65595, 65595); (65598, 65598);
   (65614, 65615); (65630, 65663); (65787, 65791); (65795, 65798); (65844, 65846);
   (65935, 65935); (65949, 65951); (65953, 65999); (66046, 66175); (66205, 66207);
   (66257, 66271); (66300, 66303); (66340, 66348); (66379, 66383); (66427, 66431);
   (66462, 66462); (66500, 66503); (66518, 66559); (66718, 66719); (66730, 66735);
   (66772, 66775); (66812, 66815); (66856, 66863); (66916, 66926); (66939, 66939);
   (66955, 66955); (66963, 66963); (66966, 66966); (66978, 66978); (66994, 66994);
   (67002, 67002); (67005, 67071); (67383, 67391); (67414, 67423); (67432, 67455);
   (67462, 67462); (67505, 67505); (67515, 67583); (67590, 67591); (67593, 67593);
   (67638, 67638); (67641, 67643); (67645, 67646); (67670, 67670); (67743, 67750);
   (67760, 67807); (67827, 67827); (67830, 67834); (67868, 67870); (67898, 67902);
   (67904, 67967); (68024, 68027); (68048, 68049); (68100, 68100); (68103, 68107);
   (68116, 68116); (68120, 68120); (68150, 68151); (68155, 68158); (68169, 68175);
   (68185, 68191); (68256, 68287); (68327, 68330); (68343, 68351); (68406, 68408);
   (68438, 68439); (68467, 68471); (68498, 68504); (68509, 68520); (68528, 68607);
   (68681, 68735); (68787, 68799); (68851, 68857); (68904, 68911); (68922, 69215);
   (69247, 69247); (69290, 69290); (69294, 69295); (69298, 69375); (69416, 69423);
   (69466, 69487); (69514, 69551); (69580, 69599); (69623, 69631); (69710, 69713);
   (69750, 69758); (69821, 69821); (69827, 69839); (69865, 69871); (69882, 69887);
   (69941, 69941); (69960, 69967); (70007, 70015); (70112, 70112); (70133, 70143);
   (70162, 70162); (70207, 70271); (70279, 70279); (70281, 70281); (70286, 70286);
   (70302, 70302); (70314, 70319); (70379, 70383); (70394, 70399); (70404, 70404);
   (70413, 70414); (70417, 70418); (70441, 70441); (70449, 70449); (70452, 70452);
   (70458, 70458); (70469, 70470); (70473, 70474); (70478, 70479); (70481, 70486);
   (70488, 70492); (70500, 70501); (70509, 70511); (70517, 70655); (70748, 70748);
   (70754, 70783); (70856, 70863); (70874, 71039); (71094, 71095); (71134, 71167);
   (71237, 71247); (71258, 71263); (71277, 71295); (71354, 71359); (71370, 71423);
   (71451, 71452); (71468, 71471); (71495, 71679); (71740, 71839); (71923, 71934);
   (71943, 71944); (71946, 71947); (71956, 71956); (71959, 71959); (71990, 71990);
   (71993, 71994); (72007, 72015); (72026, 72095); (72104, 72105); (72152, 72153);
   (72165, 72191); (72264, 72271); (72355, 72367); (72441, 72703); (72713, 72713);
   (72759, 72759); (72774, 72783); (72813, 72815); (72848, 72849); (72872, 72872);
   (72887, 72959); (72967, 72967); (72970, 72970); (73015, 73017); (73019, 73019);
   (73022, 73022); (73032, 73039); (73050, 73055); (73062, 73062); (73065, 73065);
   (73103, 73103); (73106, 73106); (73113, 73119); (73130, 73439); (73465, 73647);
   (73649, 73663); (73714, 73726); (74650, 74751); (74863, 74863); (74869, 74879);
   (75076, 77711); (77811, 77823); (78895, 82943); (83527, 92159); (92729, 92735);
   (92767, 92767); (92778, 92781); (92863, 92863); (92874, 92879); (92910, 92911);
   (92918, 92927); (92998, 93007); (93018, 93018); (93026, 93026); (93048, 93052);
   (93072, 93759); (93851, 93951); (94027, 94030); (94088, 94094); (94112, 94175);
   (94181, 94191); (94194, 94207); (100344, 100351); (101590, 101631); (101641, 110575);
   (110580, 110580); (110588, 110588); (110591, 110591); (110883, 110927); (110931, 110947);
   (110952, 110959); (111356, 113663); (113771, 113775); (113789, 113791); (113801, 113807);
   (113818, 113819); (113824, 118527); (118574, 118575); (118599, 118607); (118724, 118783);
   (119030, 119039); (119079, 119080); (119155, 119162); (119275, 119295); (119366, 119519);
   (119540, 119551); (119639, 119647); (119673, 119807); (119893, 119893); (119965, 119965);
   (119968, 119969); (119971, 119972); (119975, 119976); (119981, 119981); (119994, 119994);
   (119996, 119996); (120004, 120004); (120070, 120070); (120075, 120076); (120085, 120085);
   (120093, 120093); (120122, 120122); (120127, 120127); (120133, 120133); (120135, 120137);
   (120145, 120145); (120486, 120487); (120780, 120781); (121484, 121498); (121504, 121504);
   (121520, 122623); (122655, 122879); (122887, 122887); (122905, 122906); (122914, 122914);
   (122917, 122917); (122923, 123135); (123181, 123183); (123198, 123199); (123210, 123213);
   (123216, 123535); (123567, 123583); (123642, 123646); (123648, 124895); (124903, 124903);
   (124908, 124908); (124911, 124911); (124927, 124927); (125125, 125126); (125143, 125183);
   (125260, 125263); (125274, 125277); (125280, 126064); (126133, 126208); (126270, 126463);
   (126468, 126468); (126496, 126496); (126499, 126499); (126501, 126502); (126504, 126504);
   (126515, 126515); (126520, 126520); (126522, 126522); (126524, 126529); (126531, 126534);
   (126536, 126536); (126538, 126538); (126540, 126540); (126544, 126544); (126547, 126547);
   (126549, 126550); (126552, 126552); (126554, 126554); (126556, 126556); (126558, 126558);
   (126560, 126560); (126563, 126563); (126565, 126566); (126571, 126571); (126579, 126579);
   (126584, 126584); (126589, 126589); (126591, 126591); (126602, 126602); (126620, 126624);
   (126628, 126628); (126634, 126634); (126652, 126703); (126706, 126975); (127020, 127023);
   (127124, 127135); (127151, 127152); (127168, 127168); (127184, 127184); (127222, 127231);
   (127406, 127461); (127491, 127503); (127548, 127551); (127561, 127567); (127570, 127583);
   (127590, 127743); (128728, 128732); (128749, 128751); (128765, 128767); (128884, 128895);
   (128985, 128991); (129004, 129007); (129009, 129023); (129036, 129039); (129096, 129103);
   (129114, 129119); (129160, 129167); (129198, 129199); (129202, 129279); (129620, 129631);
   (129646, 129647); (129653, 129655); (129661, 129663); (129671, 129679); (129709, 129711);
   (129723, 129727); (129734, 129743); (129754, 129759); (129768, 129775); (129783, 129791);
   (129939, 129939); (129995, 130031); (130042, 131071); (173792, 173823); (177977, 177983);
   (178206, 178207); (183970, 183983); (191457, 194559); (195102, 196607); (201547, 917759);
   (918000, 1114111)]%N.

Definition in_ranges (ranges : list (N * N)) (c : char) : bool :=
  existsb (fun r => ((fst r <=? c) && (c <=? snd r))%N) ranges.

Definition case_ignorable (c : char) : bool := in_ranges case_ignorable_ranges c.
Definition cased (c : char) : bool := in_ranges cased_ranges c.
Definition printable (c : char) : bool := negb (in_ranges unprintable_ranges c).

Fixpoint find_lower (runs : list (N * N * N * N)) (c : char) : char :=
  match runs with
  | [] => c
  | (first, last, step, image) :: runs' =>
      if ((first <=? c) && (c <=? last) && ((c - first) mod step =? 0))%N
      then (image + (c - first))%N
      else find_lower runs' c
  end.

(** The full lowercase mapping of one character: A-Z shifted to a-z, the one
    character whose image is two characters (capital I with dot above), and
    the table for the others. *)
Definition to_lower_full (c : char) : string :=
  (if c <? 128 then [if (65 <=? c) && (c <=? 90) then c + 32 else c]
   else if c =? 304 then [105; 775]
   else [find_lower lowercase_runs c])%N.

End Unicode.

(** ** Python built-ins *)

Module Py.

Definition dquote : char := 34%N.
Definition squote : char := 39%N.
Definition backslash : char := 92%N.

Definition str1 (c : char) : string := [c].

(** The characters before and after a capital sigma decide its lowercase
    form: the final one when a cased character comes before it, case-ignorable
    characters apart, and none comes after it in the same way. *)
Fixpoint skip_ignorable (s : string) : string :=
  match s with
  | [] => []
  | c :: s' => if Unicode.case_ignorable c then skip_ignorable s' else s
  end.

(** [before] holds the characters that precede, the nearest first. *)
Definition final_sigma (before after : string) : bool :=
  match skip_ignorable before with
  | [] => false
  | c :: _ =>
      Unicode.cased c
      && match skip_ignorable after with
         | [] => true
         | c' :: _ => negb (Unicode.cased c')
         end
  end.

Fixpoint lower_from (before s : string) : string :=
  match s with
  | [] => []
  | c :: s' =>
      (if (c =? 931)%N
       then [if final_sigma before s' then 962%N else 963%N]
       else Unicode.to_lower_full c)
      ++ lower_from (c :: before) s'
  end.

(** [s.lower()] *)
Definition lower (s : string) : string := lower_from [] s.

(** [needle in hay] on two strings: substring test. *)
Fixpoint contains (needle hay : string) : bool :=
  if Str.prefix needle hay then true
  else match hay with
       | [] => false
       | _ :: hay' => contains needle hay'
       end.

(** [sep.join(parts)] *)
Fixpoint join (sep : string) (parts : list string) : string :=
  match parts with
  | [] => []
  | [p] => p
  | p :: rest => p ++ sep ++ join sep rest
  end.

(** [s[:n]] on a string *)
Definition take (n : nat) (s : string) : string := firstn n s.

Definition hex_digit (n : N) : char :=
  (if n <? 10 then 48 + n else 87 + n)%N.

(** [n] in hexadecimal, on [digits] digits. *)
Fixpoint hex (digits : nat) (n : N) : string :=
  match digits with
  | O => []
  | S d => hex d (n / 16)%N ++ [hex_digit (n mod 16)%N]
  end.

(** One character of [repr(s)], [q] being the quote [repr] chose. *)
Definition repr_char (q c : char) : string :=
  (if (c =? q) || (c =? backslash) then [backslash; c]
   else if c =? 9 then backslash :: "t"
   else if c =? 10 then backslash :: "n"
   else if c =? 13 then backslash :: "r"
   else if (c <? 32) || (c =? 127) then backslash :: "x" ++ hex 2 c
   else if c <? 127 then [c]
   else if Unicode.printable c then [c]
   else if c <=? 255 then backslash :: "x" ++ hex 2 c
   else if c <=? 65535 then backslash :: "u" ++ hex 4 c
   else backslash :: "U" ++ hex 8 c)%N.

Definition repr_chars (q : char) (s : string) : string :=
  flat_map (repr_char q) s.

(** [repr(s)] of a string: single quotes, unless the text holds a single quote
    and no double quote. *)
Definition repr_str (s : string) : string :=
  let q := if (contains (str1 squote) s && negb (contains (str1 dquote) s))%bool
           then dquote else squote in
  q :: repr_chars q s ++ str1 q.

Fixpoint digits_of (u : Decimal.uint) : string :=
  match u with
  | Decimal.Nil => []
  | Decimal.D0 u' => 48%N :: digits_of u'
  | Decimal.D1 u' => 49%N :: digits_of u'
  | Decimal.D2 u' => 50%N :: digits_of u'
  | Decimal.D3 u' => 51%N :: digits_of u'
  | Decimal.D4 u' => 52%N :: digits_of u'
  | Decimal.D5 u' => 53%N :: digits_of u'
  | Decimal.D6 u' => 54%N :: digits_of u'
  | Decimal.D7 u' => 55%N :: digits_of u'
  | Decimal.D8 u' => 56%N :: digits_of u'
  | Decimal.D9 u' => 57%N :: digits_of u'
  end.

(** [repr(n)] of an integer *)
Definition repr_int (n : Z) : string :=
  match Z.to_int n with
  | Decimal.Pos u => digits_of u
  | Decimal.Neg u => "-" ++ digits_of u
  end.

(** [repr(v)] *)
Fixpoint repr (v : pyval) : string :=
  match v with
  | PNone => "None"
  | PBool true => "True"
  | PBool false => "False"
  | PInt n => repr_int n
  | PStr s => repr_str s
  | PList l => "[" ++ join ", " (map repr l) ++ "]"
  | PDict d =>
      "{" ++ join ", " (map (fun kv => match kv with
                                       | (k, x) => repr_str k ++ ": " ++ repr x
                                       end) d) ++ "}"
  end.

(** [str(v)], which is also what an f-string field [{v}] renders. *)
Definition str (v : pyval) : string :=
  match v with
  | PStr s => s
  | _ => repr v
  end.

(** [bool(v)]: the truth value tested by [if v:] *)
Definition truthy (v : pyval) : bool :=
  match v with
  | PNone => false
  | PBool b => b
  | PInt n => negb (n =? 0)
  | PStr s => negb (Str.eqb s [])
  | PList l => match l with [] => false | _ => true end
  | PDict d => match d with [] => false | _ => true end
  end.

(** [a or b] *)
Definition or (a b : pyval) : pyval := if truthy a then a else b.

(** Lookup in a dict.  A dict is kept as an association list with distinct
    keys, in insertion order: [repr] shows that order. *)
Fixpoint lookup (key : string) (d : list (string * pyval)) : option pyval :=
  match d with
  | [] => None
  | (k, x) :: d' => if Str.eqb k key then Some x else lookup key d'
  end.

(** [v.get(key, default)]: only a dict has [get]. *)
Definition get (v : pyval) (key : string) (default : pyval) : result pyval :=
  match v with
  | PDict d => Ok (match lookup key d with Some x => x | None => default end)
  | _ => Raise AttributeError
  end.

(** [v[key]] with a string key. *)
Definition getitem (v : pyval) (key : string) : result pyval :=
  match v with
  | PDict d => match lookup key d with Some x => Ok x | None => Raise KeyError end
  | _ => Raise TypeError
  end.

(** [v[0]] *)
Definition getitem0 (v : pyval) : result pyval :=
  match v with
  | PList (x :: _) => Ok x
  | PList [] => Raise IndexError
  | PStr (c :: _) => Ok (PStr (str1 c))
  | PStr [] => Raise IndexError
  | PDict _ => Raise KeyError
  | _ => Raise TypeError
  end.

(** [v.lower()]: only a string has [lower]. *)
Definition lower_of (v : pyval) : result string :=
  match v with
  | PStr s => Ok (lower s)
  | _ => Raise AttributeError
  end.

(** [len(v)] *)
Definition len (v : pyval) : result Z :=
  match v with
  | PStr s => Ok (Z.of_nat (List.length s))
  | PList l => Ok (Z.of_nat (List.length l))
  | PDict d => Ok (Z.of_nat (List.length d))
  | _ => Raise TypeError
  end.

Definition chars (s : string) : list pyval := map (fun c => PStr (str1 c)) s.

(** The items a [for x in v:] loop goes through. *)
Definition iter (v : pyval) : result (list pyval) :=
  match v with
  | PList l => Ok l
  | PDict d => Ok (map (fun kv => PStr (fst kv)) d)
  | PStr s => Ok (chars s)
  | _ => Raise TypeError
  end.

(** [v[:n]]; slicing a dict raises (TypeError before CPython 3.12). *)
Definition slice_to (n : nat) (v : pyval) : result pyval :=
  match v with
  | PStr s => Ok (PStr (take n s))
  | PList l => Ok (PList (firstn n l))
  | _ => Raise TypeError
  end.

(** [v == s] for a string literal [s] *)
Definition eq_str (v : pyval) (s : string) : bool :=
  match v with
  | PStr t => Str.eqb t s
  | _ => false
  end.

End Py.

(** ** The process and its environment *)

Inductive http_method : Type := GET | POST.

(** What [requests.get] / [requests.post] is called with. *)
Record request : Type := mkRequest {
  method : http_method;
  url : string;
  headers : list (string * pyval);
  params : list (string * string);
  json : option pyval
}.

(** A response: its status and what [response.json()] gives, [None] when the
    body does not decode. *)
Record response : Type := mkResponse {
  status_code : Z;
  body : option pyval
}.

(** The outcome of one call into [requests]: a response, or an exception of
    the library (no connection, timeout, malformed header, ...). *)
Inductive reply : Type :=
| Resp (r : response)
| NetErr.

(** The lines the agent prints, one constructor per [print] of the source. *)
Inductive message : Type :=
| MsgLoaded (name : pyval)
| MsgAlreadyRegistered (name : pyval)
| MsgRegistering (name : pyval)
| MsgRegistered
| MsgApiKey (shown : pyval)
| MsgRegistrationFailed (body : pyval)
| MsgFoundGigs (count : Z) (status : string)
| MsgFetchGigsFailed (status : Z)
| MsgApplied (gig_title : pyval)
| MsgAlreadyApplied
| MsgApplicationFailed (body : pyval)
| MsgApplications (total accepted pending : pyval)
| MsgFetchApplicationsFailed
| MsgDeliverableSubmitted
| MsgSubmissionFailed (body : pyval)
| MsgWorkingOn (title : pyval)
| MsgRule
| MsgRunningCycle (name : pyval)
| MsgNoOpenGigs
| MsgFoundMatching (title : pyval)
| MsgBudget (budget_sats : pyval)
| MsgChecking
| MsgGigAccepted (title : pyval)
| MsgStartingLoop (interval_seconds : Z)
| MsgError (e : exn)
| MsgSleeping (interval_seconds : Z).

Inductive event : Type :=
| Http (req : request) (rep : reply)
| Print (m : message)
| Sleep (seconds : Z).

(** The state file [agent_state.json]. *)
Inductive file : Type :=
| Absent
| Garbled
| Stored (state : pyval).

(** The fields of a [ClawJobsAgent] object. *)
Record agent : Type := mkAgent {
  name : pyval;
  capabilities : list string;
  api_key : pyval;
  user_id : pyval
}.

(** The process and its machine.  [served] is the machine's clock as
    [time.sleep] meets it: whether a long delay asked for at this point of the
    run is slept ([sleep] below). *)
Record world : Type := mkWorld {
  self : agent;
  disk : file;
  trace : list event;
  served : list event -> Z -> bool
}.

(** ** Configuration *)

Definition BASE_URL : string := "https://claw-jobs.com/api".
Definition CAPABILITIES : list string :=
  ["research"; "writing"; "summarization"; "data-analysis"].
Definition LIGHTNING_ADDRESS : string := "".

(** ** The monad: state and exceptions *)

Definition M (A : Type) : Type := world -> result A * world.

Definition ret {A} (a : A) : M A := fun w => (Ok a, w).

Definition bind {A B} (m : M A) (k : A -> M B) : M B :=
  fun w => match m w with
           | (Ok a, w') => k a w'
           | (Raise e, w') => (Raise e, w')
           end.

Definition lift {A} (r : result A) : M A := fun w => (r, w).

Definition raise {A} (e : exn) : M A := fun w => (Raise e, w).

(** [try: m except Exception as e: h e] *)
Definition try_except {A} (m : M A) (h : exn -> M A) : M A :=
  fun w => match m w with
           | (Ok a, w') => (Ok a, w')
           | (Raise e, w') => h e w'
           end.

Declare Scope agent_scope.
Delimit Scope agent_scope with agent.
Notation "x <- m ;; k" := (bind m (fun x => k))
  (at level 200, m at level 100, k at level 200, right associativity) : agent_scope.
Notation "m ;; k" := (bind m (fun _ => k))
  (at level 200, k at level 200, right associativity) : agent_scope.
Local Open Scope agent_scope.

Definition emit (e : event) : M unit :=
  fun w => (Ok tt, mkWorld (self w) (disk w) (trace w ++ [e]) (served w)).

Definition print (m : message) : M unit := emit (Print m).

Definition get_self : M agent := fun w => (Ok (self w), w).

Definition set_self (a : agent) : M unit :=
  fun w => (Ok tt, mkWorld a (disk w) (trace w) (served w)).

Definition set_name (v : pyval) : M unit :=
  a <- get_self ;; set_self (mkAgent v (capabilities a) (api_key a) (user_id a)).

Definition set_api_key (v : pyval) : M unit :=
  a <- get_self ;; set_self (mkAgent (name a) (capabilities a) v (user_id a)).

Definition set_user_id (v : pyval) : M unit :=
  a <- get_self ;; set_self (mkAgent (name a) (capabilities a) (api_key a) v).

Definition read_file : M file := fun w => (Ok (disk w), w).

Definition write_file (v : pyval) : M unit :=
  fun w => (Ok tt, mkWorld (self w) (Stored v) (trace w) (served w)).

(** The longest delay, in seconds, that fits in the 64-bit count of
    nanoseconds [time.sleep] converts its argument to. *)
Definition SLEEP_MAX : Z := 9223372036.

(** A delay of 2^62 nanoseconds, in whole seconds. *)
Definition SLEEP_SURE : Z := 4611686018.

(** [time.sleep(seconds)] with an integer.  The delay is first converted
    (OverflowError beyond [SLEEP_MAX] either way), then refused when negative
    (ValueError).  CPython then sleeps until a deadline: the reading of the
    monotonic clock plus the delay, which the kernel in turn refuses
    (OSError) when it passes 2^63 nanoseconds.  The clock counts from the
    start of the machine and is taken to read less than 2^62 nanoseconds, so
    that a delay up to [SLEEP_SURE] is always slept; for a longer one the
    machine decides, through [served]. *)
Definition sleep (seconds : Z) : M unit :=
  fun w =>
    if ((seconds <? - SLEEP_MAX) || (SLEEP_MAX <? seconds))%bool
    then (Raise OverflowError, w)
    else if seconds <? 0 then (Raise ValueError, w)
    else if ((seconds <=? SLEEP_SURE) || served w (trace w) seconds)%bool
    then emit (Sleep seconds) w
    else (Raise OSError, w).

(** [response.json()] *)
Definition json_of (r : response) : M pyval :=
  match body r with
  | Some v => ret v
  | None => raise JSONDecodeError
  end.

(** ** The methods of [ClawJobsAgent] *)

Section Agent.

(** The remote service seen through [requests]: the reply to a request, given
    everything the process has done so far. *)
Variable net : list event -> request -> reply.

(** One call of [requests.get] or [requests.post]. *)
Definition http (req : request) : M response :=
  fun w =>
    let rep := net (trace w) req in
    let w' := mkWorld (self w) (disk w) (trace w ++ [Http req rep]) (served w) in
    match rep with
    | Resp r => (Ok r, w')
    | NetErr => (Raise RequestException, w')
    end.

(** [_load_state] *)
Definition _load_state : M unit :=
  f <- read_file ;;
  match f with
  | Absent => ret tt
  | Garbled => raise JSONDecodeError
  | Stored state =>
      k <- lift (Py.get state "api_key" PNone) ;;
      set_api_key k ;;
      u <- lift (Py.get state "user_id" PNone) ;;
      set_user_id u ;;
      a <- get_self ;;
      n <- lift (Py.get state "name" (name a)) ;;
      set_name n ;;
      print (MsgLoaded n)
  end.

(** [__init__] *)
Definition __init__ (name : string) (capabilities : list string) : M unit :=
  set_self (mkAgent (PStr name) capabilities PNone PNone) ;;
  _load_state.

(** [_save_state] *)
Definition _save_state : M unit :=
  a <- get_self ;;
  write_file (PDict [("api_key", api_key a); ("user_id", user_id a); ("name", name a)]).

(** [_headers] *)
Definition _headers (a : agent) : list (string * pyval) :=
  let headers := [("Content-Type", PStr "application/json")] in
  if Py.truthy (api_key a) then headers ++ [("x-api-key", api_key a)] else headers.

Definition register_request (a : agent) : request :=
  mkRequest POST (BASE_URL ++ "/auth/register") (_headers a) []
    (Some (PDict
       [("name", name a);
        ("type", PStr "agent");
        ("capabilities", PList (map PStr (capabilities a)));
        ("bio", PStr ("I'm an example agent that can help with "
                        ++ Py.join ", " (capabilities a) ++ "."));
        ("lightning_address", Py.or (PStr LIGHTNING_ADDRESS) PNone)])).

(** [register] *)
Definition register : M bool :=
  a <- get_self ;;
  if Py.truthy (api_key a) then
    print (MsgAlreadyRegistered (name a)) ;;
    ret true
  else
    print (MsgRegistering (name a)) ;;
    response <- http (register_request a) ;;
    if status_code response =? 201 then
      data <- json_of response ;;
      k <- lift (Py.getitem data "api_key") ;;
      set_api_key k ;;
      user <- lift (Py.getitem data "user") ;;
      uid <- lift (Py.getitem user "id") ;;
      set_user_id uid ;;
      _save_state ;;
      print MsgRegistered ;;
      shown <- lift (Py.slice_to 20 k) ;;
      print (MsgApiKey shown) ;;
      ret true
    else
      b <- json_of response ;;
      print (MsgRegistrationFailed b) ;;
      ret false.

Definition browse_request (a : agent) (status : string) : request :=
  mkRequest GET (BASE_URL ++ "/gigs") (_headers a) [("status", status)] None.

(** [browse_gigs] *)
Definition browse_gigs (status : string) : M pyval :=
  a <- get_self ;;
  response <- http (browse_request a status) ;;
  if status_code response =? 200 then
    gigs <- json_of response ;;
    n <- lift (Py.len gigs) ;;
    print (MsgFoundGigs n status) ;;
    ret gigs
  else
    print (MsgFetchGigsFailed (status_code response)) ;;
    ret (PList []).

Definition apply_request (a : agent) (gig_id proposal : pyval) : request :=
  mkRequest POST (BASE_URL ++ "/gigs/" ++ Py.str gig_id ++ "/apply") (_headers a) []
    (Some (if Py.truthy proposal then PDict [("proposal", proposal)] else PDict [])).

(** [apply_to_gig] *)
Definition apply_to_gig (gig_id proposal : pyval) : M pyval :=
  a <- get_self ;;
  response <- http (apply_request a gig_id proposal) ;;
  if status_code response =? 201 then
    data <- json_of response ;;
    application <- lift (Py.getitem data "application") ;;
    gig_title <- lift (Py.getitem application "gig_title") ;;
    print (MsgApplied gig_title) ;;
    ret data
  else if status_code response =? 409 then
    print MsgAlreadyApplied ;;
    ret PNone
  else
    b <- json_of response ;;
    print (MsgApplicationFailed b) ;;
    ret PNone.

Definition applications_request (a : agent) : request :=
  mkRequest GET (BASE_URL ++ "/applications") (_headers a) [] None.

(** [check_applications] *)
Definition check_applications : M pyval :=
  a <- get_self ;;
  response <- http (applications_request a) ;;
  if status_code response =? 200 then
    data <- json_of response ;;
    apps <- lift (Py.get data "applications" (PList [])) ;;
    stats <- lift (Py.get data "stats" (PDict [])) ;;
    total <- lift (Py.get stats "total" (PInt 0)) ;;
    accepted <- lift (Py.get stats "accepted" (PInt 0)) ;;
    pending <- lift (Py.get stats "pending" (PInt 0)) ;;
    print (MsgApplications total accepted pending) ;;
    ret apps
  else
    print MsgFetchApplicationsFailed ;;
    ret (PList []).

Definition deliverable_request (a : agent) (gig_id : pyval) (content : string) : request :=
  mkRequest POST (BASE_URL ++ "/deliverables") (_headers a) []
    (Some (PDict
       [("gig_id", gig_id);
        ("content", PStr content);
        ("notes", PStr "Completed by example agent")])).

(** [submit_deliverable] *)
Definition submit_deliverable (gig_id : pyval) (content : string) : M bool :=
  a <- get_self ;;
  response <- http (deliverable_request a gig_id content) ;;
  if ((status_code response =? 200) || (status_code response =? 201))%bool then
    print MsgDeliverableSubmitted ;;
    ret true
  else
    b <- json_of response ;;
    print (MsgSubmissionFailed b) ;;
    ret false.

(** The first inner loop of [find_matching_gig]: some capability occurs in
    the category or in the rendering of the required capabilities. *)
Definition category_hit (caps : list string) (gig_category : string) (gig_caps : pyval) : bool :=
  existsb (fun cap => (Py.contains (Py.lower cap) gig_category
                       || Py.contains (Py.lower cap) (Py.lower (Py.str gig_caps)))%bool) caps.

(** The second inner loop: some capability occurs in the title/description text. *)
Definition text_hit (caps : list string) (gig_text : string) : bool :=
  existsb (fun cap => Py.contains (Py.lower cap) gig_text) caps.

Definition gig_category_of (gig : pyval) : result string :=
  (c <~ Py.get gig "category" (PStr "") ; Py.lower_of c)%result.

Definition gig_text_of (gig : pyval) : result string :=
  (title <~ Py.get gig "title" (PStr "") ;
   description <~ Py.get gig "description" (PStr "") ;
   Ok (Py.lower (Py.str title ++ " " ++ Py.str description)))%result.

(** The first test made on a gig: category and required capabilities. *)
Definition category_matches (caps : list string) (gig : pyval) : result bool :=
  (gig_category <~ gig_category_of gig ;
   gig_caps <~ Py.get gig "required_capabilities" (PList []) ;
   Ok (category_hit caps gig_category gig_caps))%result.

(** The second test made on a gig: title and description. *)
Definition text_matches (caps : list string) (gig : pyval) : result bool :=
  (gig_text <~ gig_text_of gig ; Ok (text_hit caps gig_text))%result.

(** The body of the [for gig in gigs] loop: [true] where the source returns
    [gig], [false] where it goes on to the next one. *)
Definition gig_matches (caps : list string) (gig : pyval) : result bool :=
  (by_category <~ category_matches caps gig ;
   if by_category then Ok true else text_matches caps gig)%result.

(** The [for gig in gigs] loop: the gig it returns, if it returns. *)
Fixpoint first_match (caps : list string) (gigs : list pyval) : result (option pyval) :=
  match gigs with
  | [] => Ok None
  | gig :: rest =>
      (hit <~ gig_matches caps gig ;
       if hit then Ok (Some gig) else first_match caps rest)%result
  end.

(** [find_matching_gig] *)
Definition find_matching_gig (a : agent) (gigs : pyval) : result pyval :=
  (items <~ Py.iter gigs ;
   found <~ first_match (capabilities a) items ;
   match found with
   | Some gig => Ok gig
   | None => if Py.truthy gigs then Py.getitem0 gigs else Ok PNone
   end)%result.

Definition newline : string := [10%N].

(** The text [do_work] builds. *)
Definition deliverable_text (title shown_description name : pyval) (caps : list string) : string :=
  Py.join newline
    [""; "# Deliverable for: " ++ Py.str title;
     "";
     "## Summary";
     "This is an example deliverable from the Claw Jobs example agent.";
     "";
     "## Work Completed";
     "Based on the gig requirements:";
     Py.str shown_description ++ "...";
     "";
     "I have completed the requested work. In a real agent, this would contain:";
     "- Actual research findings";
     "- Generated content";
     "- Data analysis results";
     "- Or whatever the gig required";
     "";
     "## Notes";
     "- Completed by: " ++ Py.str name;
     "- Capabilities used: " ++ Py.join ", " caps;
     "";
     "Thank you for using Claw Jobs! ⚡";
     ""].

(** [do_work] *)
Definition do_work (gig : pyval) : M string :=
  a <- get_self ;;
  title <- lift (Py.get gig "title" (PStr "Unknown gig")) ;;
  description <- lift (Py.get gig "description" (PStr "")) ;;
  print (MsgWorkingOn title) ;;
  sleep 2 ;;
  shown <- lift (Py.slice_to 200 description) ;;
  ret (deliverable_text title shown (name a) (capabilities a)).

(** The body of the [for app in apps] loop of [run_once]. *)
Definition work_on (app : pyval) : M unit :=
  status <- lift (Py.getitem app "status") ;;
  if Py.eq_str status "accepted" then
    gig <- lift (Py.get app "gig" (PDict [])) ;;
    gig_id <- lift (Py.get gig "id" PNone) ;;
    if Py.truthy gig_id then
      title <- lift (Py.get gig "title" PNone) ;;
      print (MsgGigAccepted title) ;;
      deliverable <- do_work gig ;;
      _ <- submit_deliverable gig_id deliverable ;;
      ret tt
    else ret tt
  else ret tt.

(** Step 4 of [run_once]: the [for app in apps] loop. *)
Fixpoint work_on_accepted (apps : list pyval) : M unit :=
  match apps with
  | [] => ret tt
  | app :: rest => work_on app ;; work_on_accepted rest
  end.

(** [run_once] *)
Definition run_once : M unit :=
  a <- get_self ;;
  print MsgRule ;;
  print (MsgRunningCycle (name a)) ;;
  print MsgRule ;;
  gigs <- browse_gigs "open" ;;
  if negb (Py.truthy gigs) then
    print MsgNoOpenGigs ;;
    ret tt
  else
    matching_gig <- lift (find_matching_gig a gigs) ;;
    (if Py.truthy matching_gig then
       title <- lift (Py.getitem matching_gig "title") ;;
       print (MsgFoundMatching title) ;;
       budget <- lift (Py.getitem matching_gig "budget_sats") ;;
       print (MsgBudget budget) ;;
       gig_id <- lift (Py.getitem matching_gig "id") ;;
       _ <- apply_to_gig gig_id PNone ;;
       ret tt
     else ret tt) ;;
    print MsgChecking ;;
    apps <- check_applications ;;
    items <- lift (Py.iter apps) ;;
    work_on_accepted items.

(** One turn of the [while True] loop of [run_loop]. *)
Definition loop_turn (interval_seconds : Z) : M unit :=
  try_except run_once (fun e => print (MsgError e)) ;;
  print (MsgSleeping interval_seconds) ;;
  sleep interval_seconds.

(** What a run of the loop can report: it has no exit, so when the turns
    counted by the fuel are done it is still running. *)
Inductive loop_status : Type := StillRunning.

Fixpoint loop_turns (turns : nat) (interval_seconds : Z) : M loop_status :=
  match turns with
  | O => ret StillRunning
  | S n => loop_turn interval_seconds ;; loop_turns n interval_seconds
  end.

(** [run_loop], observed for [turns] turns of its loop. *)
Definition run_loop (turns : nat) (interval_seconds : Z) : M loop_status :=
  print (MsgStartingLoop interval_seconds) ;;
  loop_turns turns interval_seconds.

End Agent.

(** ** Observing a run *)

(** The world after some more events, the agent and the disk untouched. *)
Definition advance (w : world) (evs : list event) : world :=
  mkWorld (self w) (disk w) (trace w ++ evs) (served w).

(** What was added to the trace between two worlds of one run. *)
Definition events_since (w w' : world) : list event :=
  skipn (List.length (trace w)) (trace w').

(** The HTTP exchanges among some events, in order. *)
Fixpoint exchanges (evs : list event) : list (request * reply) :=
  match evs with
  | [] => []
  | Http req rep :: rest => (req, rep) :: exchanges rest
  | _ :: rest => exchanges rest
  end.

(** The gig a request delivers work for, when it is a deliverable POST. *)
Definition delivered_gig_id (req : request) : option pyval :=
  match method req, json req with
  | POST, Some (PDict payload) =>
      if Str.eqb (url req) (BASE_URL ++ "/deliverables")
      then Py.lookup "gig_id" payload else None
  | _, _ => None
  end.

(** The gigs for which a deliverable was posted, in order. *)
Fixpoint submitted (exs : list (request * reply)) : list pyval :=
  match exs with
  | [] => []
  | (req, _) :: rest =>
      match delivered_gig_id req with
      | Some gig_id => gig_id :: submitted rest
      | None => submitted rest
      end
  end.

(** [app['status'] == 'accepted'], on an application that has a status. *)
Definition is_accepted (app : pyval) : bool :=
  match Py.getitem app "status" with
  | Ok status => Py.eq_str status "accepted"
  | Raise _ => false
  end.

(** The id of the gig embedded in an application, [None] without one. *)
Definition embedded_gig_id (app : pyval) : pyval :=
  match Py.get app "gig" (PDict []) with
  | Ok gig => match Py.get gig "id" PNone with
              | Ok gig_id => gig_id
              | Raise _ => PNone
              end
  | Raise _ => PNone
  end.

(** The applications step 4 of the cycle works on: accepted, and holding a gig
    whose id passes [if gig_id:]. *)
Definition fulfillable (app : pyval) : bool :=
  (is_accepted app && Py.truthy (embedded_gig_id app))%bool.

(** A request that posts a deliverable on behalf of agent [a]. *)
Definition is_delivery (a : agent) (x : request * reply) : Prop :=
  exists gig_id content, fst x = deliverable_request a gig_id content.

(** A request built with the headers of agent [a]. *)
Definition from_agent (a : agent) (x : request * reply) : Prop :=
  headers (fst x) = _headers a.

(** The HTTP exchanges one cycle can make, with its outcome [r]:
    - it stops after the task listing (listing empty or failed, or an
      exception before any other call);
    - it stops in the apply call, which raised;
    - it goes through: listing, at most one apply, the applications listing,
      then deliverables only; when it ends normally on a decoded applications
      list, the deliverables are those of the fulfillable applications. *)
Inductive cycle_shape (a : agent) (r : result unit) : list (request * reply) -> Prop :=
| cycle_stopped (rep : reply) :
    cycle_shape a r [(browse_request a "open", rep)]
| cycle_apply_raised (rep : reply) (gig_id : pyval) (rep' : reply) :
    (forall rsp, rep' = Resp rsp -> status_code rsp <> 409) ->
    cycle_shape a r [(browse_request a "open", rep); (apply_request a gig_id PNone, rep')]
| cycle_checked (rep : reply) (applied : list (request * reply)) (rep_c : reply)
                (ds : list (request * reply)) :
    (applied = [] \/ exists gig_id rep', applied = [(apply_request a gig_id PNone, rep')]) ->
    Forall (is_delivery a) ds ->
    (r = Ok tt ->
     forall data apps,
       rep_c = Resp (mkResponse 200 (Some data)) ->
       Py.get data "applications" (PList []) = Ok (PList apps) ->
       submitted ds = map embedded_gig_id (filter fulfillable apps)) ->
    cycle_shape a r
      ((browse_request a "open", rep) :: applied ++ (applications_request a, rep_c) :: ds)%list.

(** A computation that changes neither the agent nor the disk, and whose
    requests all carry the headers of the agent. *)
Definition steady {A} (m : M A) : Prop :=
  forall w r w', m w = (r, w') ->
    exists evs, w' = advance w evs /\ Forall (from_agent (self w)) (exchanges evs).

(** The header every authenticated request carries. *)
Definition carries_key (k : pyval) (req : request) : Prop :=
  In ("x-api-key", k) (headers req).

(** The state file holds the key the agent uses. *)
Definition key_on_disk (w : world) : Prop :=
  exists d, disk w = Stored (PDict d) /\ Py.lookup "api_key" d = Some (api_key (self w)).




(** The operations of a running agent. *)
Inductive operation : Type :=
| OpRegister
| OpBrowse (status : string)
| OpApply (gig_id proposal : pyval)
| OpCheck
| OpSubmit (gig_id : pyval) (content : string)
| OpWork (gig : pyval)
| OpCycle
| OpLoop (turns : nat) (interval_seconds : Z).

Definition forget {A} (m : M A) : M unit := bind m (fun _ => ret tt).

Definition perform (net : list event -> request -> reply) (op : operation) : M unit :=
  match op with
  | OpRegister => forget (register net)
  | OpBrowse status => forget (browse_gigs net status)
  | OpApply gig_id proposal => forget (apply_to_gig net gig_id proposal)
  | OpCheck => forget (check_applications net)
  | OpSubmit gig_id content => forget (submit_deliverable net gig_id content)
  | OpWork gig => forget (do_work gig)
  | OpCycle => run_once net
  | OpLoop turns interval_seconds => forget (run_loop net turns interval_seconds)
  end.

(** ** The claims of the specification, as it words them *)

(** Matcher priority: when some task of the list matches on category or
    required capabilities, the selected task is such a task. *)
Definition category_priority (a : agent) (gigs : list pyval) : Prop :=
  forall chosen,
    find_matching_gig a (PList gigs) = Ok chosen ->
    (exists g, In g gigs /\ category_matches (capabilities a) g = Ok true) ->
    category_matches (capabilities a) chosen = Ok true.

(** Soft-failure continuity: a cycle whose task listing got a non-success
    status still lists the applications. *)
Definition listing_failure_continues (net : list event -> request -> reply) (w : world) : Prop :=
  forall rsp,
    In (browse_request (self w) "open", Resp rsp)
       (exchanges (events_since w (snd (run_once net w)))) ->
    status_code rsp <> 200 ->
    exists rep,
      In (applications_request (self w), rep)
         (exchanges (events_since w (snd (run_once net w)))).

(** Accepted-fulfillment completeness: as many deliverables are posted in a
    cycle as the applications listing holds accepted applications. *)
Definition fulfils_every_accepted (net : list event -> request -> reply) (w : world) : Prop :=
  forall data apps,
    In (applications_request (self w), Resp (mkResponse 200 (Some data)))
       (exchanges (events_since w (snd (run_once net w)))) ->
    Py.get data "applications" (PList []) = Ok (PList apps) ->
    List.length (submitted (exchanges (events_since w (snd (run_once net w)))))
    = List.length (filter is_accepted apps).



(** ** Sample data *)

Module Sample.

Definition bot : agent := mkAgent (PStr "ExampleAgent-a1b2") CAPABILITIES (PStr "sk-1") (PStr "u1").

(** A machine started recently: it sleeps every delay it is asked for. *)
Definition rested (_ : list event) (_ : Z) : bool := true.

Definition fresh : world := mkWorld bot Absent [] rested.

(** A task that mentions a capability in its title only. *)
Definition text_only_gig : pyval :=
  PDict [("id", PStr "g1"); ("title", PStr "Writing tips"); ("description", PStr "");
         ("category", PStr "misc"); ("required_capabilities", PList []);
         ("budget_sats", PInt 100)].

(** A task of a category the agent is capable of. *)
Definition category_gig : pyval :=
  PDict [("id", PStr "g2"); ("title", PStr "Newsletter"); ("description", PStr "");
         ("category", PStr "Writing"); ("required_capabilities", PList []);
         ("budget_sats", PInt 50)].

(** A task nothing of the agent matches. *)
Definition unrelated_gig : pyval :=
  PDict [("id", PStr "g3"); ("title", PStr "Logo"); ("description", PStr "Draw a logo");
         ("category", PStr "design"); ("required_capabilities", PList [PStr "drawing"]);
         ("budget_sats", PInt 10)].

(** A task whose category is written in accented capitals. *)
Definition resume_gig : pyval :=
  PDict [("id", PStr "g9"); ("title", PStr "CV"); ("description", PStr "");
         ("category", PStr "RÉSUMÉ"); ("budget_sats", PInt 40)].

Definition has_url (r : request) (u : string) : bool := Str.eqb (url r) u.

(** A service where every call fails with status 500 and an HTML page. *)
Definition broken (_ : list event) (_ : request) : reply :=
  Resp (mkResponse 500 None).

(** A service that has no connection at all. *)
Definition offline (_ : list event) (_ : request) : reply := NetErr.

(** An accepted application whose embedded gig is missing. *)
Definition orphan_application : pyval := PDict [("status", PStr "accepted")].

Definition accepted_application : pyval :=
  PDict [("status", PStr "accepted"); ("gig", category_gig)].

Definition pending_application : pyval :=
  PDict [("status", PStr "pending"); ("gig", unrelated_gig)].

(** A service with one open task, already applied to, and the given
    applications; deliverables are answered with [delivery]. *)
Definition market (apps : list pyval) (delivery : response) (_ : list event) (r : request) : reply :=
  if has_url r (BASE_URL ++ "/gigs") then
    Resp (mkResponse 200 (Some (PList [category_gig])))
  else if has_url r (BASE_URL ++ "/applications") then
    Resp (mkResponse 200 (Some (PDict [("applications", PList apps)])))
  else if has_url r (BASE_URL ++ "/deliverables") then Resp delivery
  else Resp (mkResponse 409 None).

Definition created : response := mkResponse 201 (Some (PDict [])).
Definition no_content : response := mkResponse 204 (Some PNone).

(** A state file as [_save_state] writes it. *)
Definition saved : pyval :=
  PDict [("api_key", PStr "sk-1"); ("user_id", PStr "u1"); ("name", PStr "ExampleAgent-a1b2")].

Definition returning : world :=
  mkWorld (mkAgent PNone [] PNone PNone) (Stored saved) [] rested.

(** A service that registers whoever asks. *)
Definition registrar (_ : list event) (_ : request) : reply :=
  Resp (mkResponse 201
          (Some (PDict [("api_key", PStr "sk-2"); ("user", PDict [("id", PStr "u2")])]))).

(** An agent object just created, no state file. *)
Definition newcomer : world :=
  mkWorld (mkAgent (PStr "ExampleAgent-zz99") CAPABILITIES PNone PNone) Absent [] rested.

(** The tasks of the example of the specification. *)
Definition data_cleanup_gig : pyval :=
  PDict [("title", PStr "data cleanup"); ("category", PStr "misc")].

Definition misc_writing_gig : pyval :=
  PDict [("title", PStr "misc"); ("category", PStr "writing")].

Definition applications : list pyval :=
  [accepted_application; orphan_application; pending_application].

(** One cycle against a market holding these applications. *)
Definition cycle : result unit * world :=
  perform (market applications created) OpCycle fresh.

End Sample.

(** ** More observations *)

(** [needle] occurs in [hay]: some text, the needle, some text. *)
Definition occurs (needle hay : string) : Prop :=
  exists before after, hay = (before ++ needle ++ after)%list.

(** [d.get(key, default)] on the items of a dict. *)
Definition field (d : list (string * pyval)) (key : string) (default : pyval) : pyval :=
  match Py.lookup key d with Some x => x | None => default end.

(** The three lines [run_once] prints first. *)
Definition banner (w : world) : list event :=
  [Print MsgRule; Print (MsgRunningCycle (name (self w))); Print MsgRule].

(** The kinds of request, by method and URL. *)
Definition is_registration (req : request) : bool :=
  match method req with
  | POST => Str.eqb (url req) (BASE_URL ++ "/auth/register")
  | GET => false
  end.

Definition is_listing (req : request) : bool :=
  match method req with
  | GET => Str.eqb (url req) (BASE_URL ++ "/gigs")
  | POST => false
  end.

Definition is_application_post (req : request) : bool :=
  match method req with
  | POST => Str.prefix (BASE_URL ++ "/gigs/") (url req)
  | GET => false
  end.

Definition is_applications_listing (req : request) : bool :=
  match method req with
  | GET => Str.eqb (url req) (BASE_URL ++ "/applications")
  | POST => false
  end.

(** How many of the exchanges are requests of kind [p]. *)
Definition count (p : request -> bool) (exs : list (request * reply)) : nat :=
  List.length (filter (fun x => p (fst x)) exs).

(** Like [cycle_shape], for any outcome of the cycle: the deliverables posted
    after a decoded applications list are the first ones it calls for, and
    there is none without such a list. *)
Inductive cycle_progress (a : agent) : list (request * reply) -> Prop :=
| progress_stopped (rep : reply) :
    cycle_progress a [(browse_request a "open", rep)]
| progress_apply_raised (rep : reply) (gig_id : pyval) (rep' : reply) :
    cycle_progress a [(browse_request a "open", rep); (apply_request a gig_id PNone, rep')]
| progress_checked (rep : reply) (applied : list (request * reply)) (rep_c : reply)
                   (ds : list (request * reply)) :
    (applied = [] \/ exists gig_id rep', applied = [(apply_request a gig_id PNone, rep')]) ->
    Forall (is_delivery a) ds ->
    (forall data apps,
       rep_c = Resp (mkResponse 200 (Some data)) ->
       Py.get data "applications" (PList []) = Ok (PList apps) ->
       exists n, submitted ds = firstn n (map embedded_gig_id (filter fulfillable apps))) ->
    ((forall data, rep_c <> Resp (mkResponse 200 (Some data))) -> ds = []) ->
    cycle_progress a
      ((browse_request a "open", rep) :: applied ++ (applications_request a, rep_c) :: ds)%list.

(** ** The entry point *)

(** The lines [main] prints itself. *)
Inductive main_line : Type :=
| SaidBanner
| SaidFailedToRegister
| SaidRuleAbove
| SaidDone
| SaidRuleBelow.

(** What the process shows and does, in order: the lines of [main] and the
    events of the agent it drives. *)
Inductive main_event : Type :=
| Said (l : main_line)
| Did (e : event).

Record process : Type := mkProcess {
  agent_world : world;
  console : list main_event
}.

Definition P (A : Type) : Type := process -> result A * process.

Definition pret {A} (a : A) : P A := fun p => (Ok a, p).

Definition pbind {A B} (m : P A) (k : A -> P B) : P B :=
  fun p => match m p with
           | (Ok a, p') => k a p'
           | (Raise e, p') => (Raise e, p')
           end.

(** A [print] of [main]. *)
Definition say (l : main_line) : P unit :=
  fun p => (Ok tt, mkProcess (agent_world p) (console p ++ [Said l])).

(** A call into the agent: its events are appended as they come. *)
Definition call {A} (m : M A) : P A :=
  fun p =>
    let (r, w') := m (agent_world p) in
    (r, mkProcess w' (console p ++ map Did (events_since (agent_world p) w'))).

Declare Scope process_scope.
Delimit Scope process_scope with process.
Notation "x <- m ;; k" := (pbind m (fun x => k))
  (at level 200, m at level 100, k at level 200, right associativity) : process_scope.
Notation "m ;; k" := (pbind m (fun _ => k))
  (at level 200, k at level 200, right associativity) : process_scope.

(** [main], for the name drawn when the module is loaded. *)
Definition main (net : list event -> request -> reply) (AGENT_NAME : string) : P unit :=
  (say SaidBanner ;;
   call (__init__ AGENT_NAME CAPABILITIES) ;;
   registered <- call (register net) ;;
   if negb registered then
     say SaidFailedToRegister ;;
     pret tt
   else
     call (run_once net) ;;
     say SaidRuleAbove ;;
     say SaidDone ;;
     say SaidRuleBelow)%process.

(** The events of the agent among what the process showed and did. *)
Fixpoint did (c : list main_event) : list event :=
  match c with
  | [] => []
  | Did e :: rest => e :: did rest
  | Said _ :: rest => did rest
  end.

(** What the console got between two states of the process. *)
Definition shown_since (p p' : process) : list main_event :=
  skipn (List.length (console p)) (console p').

(** ** More sample data *)

Module Fixture.

(** A service that refuses every call with a JSON error. *)
Definition refusing (_ : list event) (_ : request) : reply :=
  Resp (mkResponse 400 (Some (PDict [("error", PStr "name taken")]))).

(** A service whose registration answer holds a key and nothing else. *)
Definition key_only (_ : list event) (_ : request) : reply :=
  Resp (mkResponse 201 (Some (PDict [("api_key", PStr "sk-3")]))).



(** A service that answers every call with a number. *)
Definition counting (_ : list event) (_ : request) : reply :=
  Resp (mkResponse 200 (Some (PInt 3))).


(** A service that answers every call with an empty array. *)
Definition empty_array (_ : list event) (_ : request) : reply :=
  Resp (mkResponse 200 (Some (PList []))).

(** A service that answers every call with an error object and status 200. *)
Definition error_object (_ : list event) (_ : request) : reply :=
  Resp (mkResponse 200 (Some (PDict [("error", PStr "maintenance")]))).




Definition shouting : agent := mkAgent (PStr "A") ["RÉSUMÉ"; "WRITING"] PNone PNone.
Definition whispering : agent := mkAgent (PStr "B") ["résumé"; "writing"] PNone PNone.

(** A process about to start over a state file, and one without. *)
Definition restart : process := mkProcess Sample.returning [].



End Fixture.

(** * Properties *)

(** ** Worlds and traces *)

Lemma advance_nil (w : world) : advance w [] = w.
Proof. destruct w; unfold advance; simpl. now rewrite app_nil_r. Qed.

Lemma advance_advance (w : world) (e1 e2 : list event) :
  advance (advance w e1) e2 = advance w (e1 ++ e2).
Proof. unfold advance; simpl. now rewrite app_assoc. Qed.

Lemma skipn_length_app {A} (l r : list A) : skipn (List.length l) (l ++ r) = r.
Proof. induction l; simpl; auto. Qed.

Lemma events_since_advance (w : world) (evs : list event) :
  events_since w (advance w evs) = evs.
Proof. unfold events_since, advance; simpl. apply skipn_length_app. Qed.

Lemma exchanges_app (e1 e2 : list event) :
  exchanges (e1 ++ e2) = (exchanges e1 ++ exchanges e2)%list.
Proof.
  induction e1 as [|[req rep|m|n] e1 IH]; simpl; auto. now rewrite IH.
Qed.

(** ** Running a method symbolically *)

(** Unfold the monad in the equation [H] of a run. *)
Ltac unfold_monad H :=
  cbv [bind ret lift raise print emit get_self set_self set_name set_api_key set_user_id
       read_file write_file json_of http try_except forget] in H.

(** Split the run [H] on every test and every outcome it depends on. *)
Ltac split_run H :=
  repeat match type of H with
         | context [match ?x with _ => _ end] =>
             lazymatch x with
             | context [match _ with _ => _ end] => fail
             | _ => destruct x eqn:?
             end
         | context [if ?x then _ else _] =>
             lazymatch x with
             | context [match _ with _ => _ end] => fail
             | _ => destruct x eqn:?
             end
         end.

(** Read the final world off a finished run. *)
Ltac close_run H :=
  inversion H; subst; clear H; unfold advance; cbn [self disk trace];
  repeat rewrite <- app_assoc; cbn [List.app].



(** Push [exchanges] through a trace. *)
Ltac norm_ex :=
  repeat first [ rewrite exchanges_app | progress cbn [exchanges List.app] ].

(** ** The matcher *)

Lemma gig_matches_true (caps : list string) (g : pyval) :
  gig_matches caps g = Ok true <->
  category_matches caps g = Ok true
  \/ (category_matches caps g = Ok false /\ text_matches caps g = Ok true).
Proof.
  unfold gig_matches, rbind.
  destruct (category_matches caps g) as [[|]|e]; intuition congruence.
Qed.

Lemma gig_matches_false (caps : list string) (g : pyval) :
  gig_matches caps g = Ok false <->
  category_matches caps g = Ok false /\ text_matches caps g = Ok false.
Proof.
  unfold gig_matches, rbind.
  destruct (category_matches caps g) as [[|]|e]; intuition congruence.
Qed.

(** The loop passes over gigs that match nothing and stops at the first that
    matches. *)
Lemma first_match_skips (caps : list string) (pre : list pyval) (g : pyval) (post : list pyval) :
  (forall x, In x pre -> gig_matches caps x = Ok false) ->
  gig_matches caps g = Ok true ->
  first_match caps (pre ++ g :: post) = Ok (Some g).
Proof.
  induction pre as [|p pre IH]; intros Hpre Hg; simpl.
  - now rewrite Hg.
  - rewrite (Hpre p (or_introl eq_refl)). simpl.
    apply IH; auto. intros x Hx. apply Hpre. now right.
Qed.

Lemma first_match_none (caps : list string) (gigs : list pyval) :
  (forall x, In x gigs -> gig_matches caps x = Ok false) ->
  first_match caps gigs = Ok None.
Proof.
  induction gigs as [|g gigs IH]; intros H; simpl; [reflexivity|].
  rewrite (H g (or_introl eq_refl)). simpl. apply IH. intros x Hx. apply H. now right.
Qed.

(** C1, as the code has it: the matcher makes one pass and returns the first
    task, in list order, that matches on category / required capabilities or
    on title / description; the tasks after it, whatever they match on, play
    no part. *)
Theorem first_listed_match_wins (a : agent) (pre : list pyval) (g : pyval) (post : list pyval) :
  (forall x, In x pre ->
     category_matches (capabilities a) x = Ok false
     /\ text_matches (capabilities a) x = Ok false) ->
  (category_matches (capabilities a) g = Ok true
   \/ (category_matches (capabilities a) g = Ok false
       /\ text_matches (capabilities a) g = Ok true)) ->
  find_matching_gig a (PList (pre ++ g :: post)) = Ok g.
Proof.
  intros Hpre Hg. unfold find_matching_gig. simpl.
  rewrite first_match_skips; [reflexivity| |].
  - intros x Hx. apply gig_matches_false. now apply Hpre.
  - now apply gig_matches_true.
Qed.

Lemma first_listed_match_wins_witness :
  find_matching_gig Sample.bot
    (PList ([Sample.unrelated_gig] ++ Sample.text_only_gig :: [Sample.category_gig]))
  = Ok Sample.text_only_gig.
Proof.
  apply first_listed_match_wins.
  - intros x [<-|[]]. split; reflexivity.
  - right. split; reflexivity.
Defined.

(** C1, as the specification words it, fails: with a task matching on its
    title only listed before a task matching on its category, the first one is
    selected. *)
Lemma category_priority_fails :
  ~ category_priority Sample.bot [Sample.text_only_gig; Sample.category_gig].
Proof.
  intros H.
  specialize (H Sample.text_only_gig eq_refl).
  assert (E : category_matches (capabilities Sample.bot) Sample.text_only_gig = Ok false)
    by reflexivity.
  rewrite E in H.
  assert (C : Ok false = Ok true :> result bool).
  { apply H. exists Sample.category_gig. split; [right; left; reflexivity|reflexivity]. }
  discriminate C.
Qed.

(** C7: the selection depends on the capabilities and the task list alone;
    when no task matches on category, required capabilities, title or
    description, the first task of a non-empty list is selected; an empty list
    gives none. *)
Theorem matcher_deterministic_with_fallback :
  (forall a1 a2 gigs, capabilities a1 = capabilities a2 ->
     find_matching_gig a1 gigs = find_matching_gig a2 gigs)
  /\ (forall a g rest,
        (forall x, In x (g :: rest) ->
           category_matches (capabilities a) x = Ok false
           /\ text_matches (capabilities a) x = Ok false) ->
        find_matching_gig a (PList (g :: rest)) = Ok g)
  /\ (forall a, find_matching_gig a (PList []) = Ok PNone).
Proof.
  split; [|split].
  - intros a1 a2 gigs E. unfold find_matching_gig. now rewrite E.
  - intros a g rest H. unfold find_matching_gig.
    cbn [Py.iter rbind]. rewrite first_match_none; [reflexivity|].
    intros x Hx. apply gig_matches_false. now apply H.
  - reflexivity.
Qed.

Lemma matcher_fallback_witness :
  find_matching_gig Sample.bot (PList [Sample.unrelated_gig; Sample.resume_gig])
  = Ok Sample.unrelated_gig.
Proof.
  apply (proj1 (proj2 matcher_deterministic_with_fallback)).
  intros x [<-|[<-|[]]]; split; reflexivity.
Defined.


Section Runs.
Variable net : list event -> request -> reply.

(** Each method makes one request, built from the agent, then only prints. *)
Lemma browse_gigs_run (status : string) (w : world) (r : result pyval) (w' : world) :
  browse_gigs net status w = (r, w') ->
  exists rep rest,
    w' = advance w (Http (browse_request (self w) status) rep :: rest)
    /\ exchanges rest = [].
Proof.
  unfold browse_gigs. intros H. unfold_monad H. cbn [self disk trace] in H.
  split_run H; close_run H; do 2 eexists; split; reflexivity.
Qed.

Lemma apply_to_gig_run (gig_id proposal : pyval) (w : world) (r : result pyval) (w' : world) :
  apply_to_gig net gig_id proposal w = (r, w') ->
  exists rep rest,
    w' = advance w (Http (apply_request (self w) gig_id proposal) rep :: rest)
    /\ exchanges rest = []
    /\ (forall rsp, rep = Resp rsp -> status_code rsp = 409 ->
        r = Ok PNone /\ rest = [Print MsgAlreadyApplied]).
Proof.
  unfold apply_to_gig. intros H. unfold_monad H. cbn [self disk trace] in H.
  split_run H; close_run H; do 2 eexists; (split; [reflexivity|split; [reflexivity|]]);
    intros rsp E E9; inversion E; subst;
    repeat match goal with
           | Hb : (_ =? _) = true |- _ => apply Z.eqb_eq in Hb
           | Hb : (_ =? _) = false |- _ => apply Z.eqb_neq in Hb
           end; try lia; auto.
Qed.

Lemma check_applications_run (w : world) (r : result pyval) (w' : world) :
  check_applications net w = (r, w') ->
  exists rep rest,
    w' = advance w (Http (applications_request (self w)) rep :: rest)
    /\ exchanges rest = []
    /\ (forall apps data, r = Ok apps -> rep = Resp (mkResponse 200 (Some data)) ->
        Py.get data "applications" (PList []) = Ok apps).
Proof.
  unfold check_applications. intros H. unfold_monad H. cbn [self disk trace] in H.
  split_run H; close_run H; do 2 eexists; (split; [reflexivity|split; [reflexivity|]]);
    intros apps data E1 E2; inversion E1; inversion E2; subst;
    cbn [status_code body] in *; try discriminate; try congruence.
Qed.

Lemma submit_deliverable_run (gig_id : pyval) (content : string) (w : world)
    (r : result bool) (w' : world) :
  submit_deliverable net gig_id content w = (r, w') ->
  exists rep rest,
    w' = advance w (Http (deliverable_request (self w) gig_id content) rep :: rest)
    /\ exchanges rest = [].
Proof.
  unfold submit_deliverable. intros H. unfold_monad H. cbn [self disk trace] in H.
  split_run H; close_run H; do 2 eexists; split; reflexivity.
Qed.

Lemma do_work_run (gig : pyval) (w : world) (r : result string) (w' : world) :
  do_work gig w = (r, w') ->
  exists rest, w' = advance w rest /\ exchanges rest = [].
Proof.
  unfold do_work, sleep. intros H. unfold_monad H. cbn [self disk trace] in H.
  cbn [Z.ltb Z.compare] in H. unfold_monad H. cbn [self disk trace] in H.
  split_run H; inversion H; subst; clear H;
    first [ exists []; split; [now rewrite advance_nil|reflexivity]
          | unfold advance; cbn [self disk trace]; repeat rewrite <- app_assoc; cbn [List.app];
            eexists; split; reflexivity ].
Qed.


Lemma bind_inv {A B} (m : M A) (k : A -> M B) (w : world) (r : result B) (w' : world) :
  bind m k w = (r, w') ->
  (exists x w1, m w = (Ok x, w1) /\ k x w1 = (r, w'))
  \/ (exists e, m w = (Raise e, w') /\ r = Raise e).
Proof.
  unfold bind. destruct (m w) as [[x|e] w1]; intros H.
  - left. eauto.
  - right. inversion H; subst. eauto.
Qed.

(** One application: at most one deliverable, exactly one when it ends
    normally on a fulfillable application. *)
Lemma work_on_run (app : pyval) (w : world) (r : result unit) (w' : world) :
  work_on net app w = (r, w') ->
  exists evs,
    w' = advance w evs
    /\ Forall (is_delivery (self w)) (exchanges evs)
    /\ (r = Ok tt ->
        submitted (exchanges evs) = if fulfillable app then [embedded_gig_id app] else []).
Proof.
  unfold work_on, do_work, submit_deliverable, sleep. intros H.
  unfold_monad H. cbn [self disk trace Z.ltb Z.compare] in H.
  unfold_monad H. cbn [self disk trace] in H.
  unfold fulfillable, is_accepted, embedded_gig_id.
  split_run H; inversion H; subst; clear H;
    repeat match goal with
           | E : ?x = _ |- context [?x] => rewrite E
           end;
    cbn [andb];
    try solve [ exists []; split; [now rewrite advance_nil|];
            split; [constructor| intros; try discriminate; reflexivity]
          | unfold advance; cbn [self disk trace]; repeat rewrite <- app_assoc; cbn [List.app];
            eexists; split; [reflexivity|]; cbn [exchanges];
            split; [ try (constructor; [do 2 eexists; reflexivity|]); constructor
                   | intros; try discriminate; reflexivity ] ].
Qed.

Lemma submitted_app (e1 e2 : list (request * reply)) :
  submitted (e1 ++ e2) = (submitted e1 ++ submitted e2)%list.
Proof.
  induction e1 as [|[req rep] e1 IH]; simpl; auto.
  destruct (delivered_gig_id req); simpl; now rewrite IH.
Qed.

Lemma work_on_accepted_run (apps : list pyval) : forall (w : world) (r : result unit) (w' : world),
  work_on_accepted net apps w = (r, w') ->
  exists evs,
    w' = advance w evs
    /\ Forall (is_delivery (self w)) (exchanges evs)
    /\ (r = Ok tt ->
        submitted (exchanges evs) = map embedded_gig_id (filter fulfillable apps)).
Proof.
  induction apps as [|a apps IH]; intros w r w' H.
  - inversion H; subst. exists []. rewrite advance_nil.
    repeat split; auto.
  - cbn [work_on_accepted] in H.
    apply bind_inv in H as [(x & w1 & H1 & H2) | (e & H1 & ->)].
    + apply work_on_run in H1 as (e1 & -> & F1 & S1).
      apply IH in H2 as (e2 & -> & F2 & S2).
      exists (e1 ++ e2)%list. rewrite advance_advance. split; [reflexivity|].
      rewrite exchanges_app. split; [apply Forall_app; split; assumption|].
      intros ->. rewrite submitted_app, S2 by reflexivity.
      destruct x. rewrite S1 by reflexivity.
      cbn [filter]. destruct (fulfillable a); reflexivity.
    + apply work_on_run in H1 as (e1 & -> & F1 & _).
      exists e1. repeat split; auto. discriminate.
Qed.

Lemma bind_get_self {B} (k : agent -> M B) (w : world) : bind get_self k w = k (self w) w.
Proof. reflexivity. Qed.

Lemma bind_print {B} (m : message) (k : unit -> M B) (w : world) :
  bind (print m) k w = k tt (advance w [Print m]).
Proof. reflexivity. Qed.

Lemma bind_lift {A B} (x : result A) (k : A -> M B) (w : world) :
  bind (lift x) k w = match x with Ok a => k a w | Raise e => (Raise e, w) end.
Proof. destruct x; reflexivity. Qed.

(** Step 2 of [run_once]: no request, or the apply request alone. *)
Lemma apply_step_run (mg : pyval) (w : world) (r : result unit) (w' : world) :
  (if Py.truthy mg
   then
     title <- lift (Py.getitem mg "title");;
     print (MsgFoundMatching title);;
     budget <- lift (Py.getitem mg "budget_sats");;
     print (MsgBudget budget);;
     gig_id <- lift (Py.getitem mg "id");;
     apply_to_gig net gig_id PNone;; ret tt
   else ret tt) w = (r, w') ->
  exists evs,
    w' = advance w evs
    /\ (exchanges evs = []
        \/ exists gig_id rep,
             exchanges evs = [(apply_request (self w) gig_id PNone, rep)]
             /\ (forall rsp, rep = Resp rsp -> status_code rsp = 409 -> r = Ok tt)).
Proof.
  destruct (Py.truthy mg).
  2: { intros H; inversion H; subst. exists []. rewrite advance_nil. auto. }
  rewrite bind_lift. destruct (Py.getitem mg "title") as [title|e].
  2: { intros H; inversion H; subst. exists []. rewrite advance_nil. auto. }
  rewrite bind_print, bind_lift. destruct (Py.getitem mg "budget_sats") as [budget|e].
  2: { intros H; inversion H; subst. eexists. split; [reflexivity|]. auto. }
  rewrite bind_print, advance_advance, bind_lift. cbn [List.app].
  destruct (Py.getitem mg "id") as [gig_id|e].
  2: { intros H; inversion H; subst. eexists. split; [reflexivity|]. auto. }
  intros H.
  apply bind_inv in H as [(x & w1 & Ha & H) | (e & Ha & ->)];
    apply apply_to_gig_run in Ha as (rep & rest & -> & Ex & C);
    rewrite advance_advance in *; cbn [List.app self advance] in *.
  - inversion H; subst. eexists. split; [reflexivity|]. right.
    exists gig_id, rep. cbn [exchanges]. rewrite Ex. auto.
  - eexists. split; [reflexivity|]. right.
    exists gig_id, rep. cbn [exchanges]. rewrite Ex. split; [reflexivity|].
    intros rsp E E9. destruct (C rsp E E9) as [C1 _]. discriminate C1.
Qed.

(** A cycle changes neither the agent nor the disk, and its exchanges have one
    of the shapes of [cycle_shape]. *)
Lemma run_once_run (w : world) (r : result unit) (w' : world) :
  run_once net w = (r, w') ->
  exists evs, w' = advance w evs /\ cycle_shape (self w) r (exchanges evs).
Proof.
  unfold run_once. rewrite bind_get_self, !bind_print, !advance_advance. cbn [List.app].
  intros H.
  apply bind_inv in H as [(gigs & w1 & Hb & H) | (e & Hb & ->)];
    apply browse_gigs_run in Hb as (rep & rest & -> & Ex);
    rewrite ?advance_advance in *; cbn [List.app self advance] in *.
  2: { eexists. split; [reflexivity|]. norm_ex. rewrite Ex. constructor. }
  destruct (negb (Py.truthy gigs)).
  { rewrite bind_print in H. inversion H; subst. rewrite advance_advance.
    eexists. split; [reflexivity|]. norm_ex. rewrite Ex. constructor. }
  rewrite bind_lift in H.
  destruct (find_matching_gig (self w) gigs) as [mg|e].
  2: { inversion H; subst. eexists. split; [reflexivity|]. norm_ex.
       rewrite Ex. constructor. }
  apply bind_inv in H as [(x & w2 & Ha & H) | (e & Ha & ->)];
    apply apply_step_run in Ha as (ea & -> & Ea);
    rewrite ?advance_advance in *; cbn [List.app self advance] in *.
  2: { eexists. split; [reflexivity|]. norm_ex; rewrite ?Ex, ?app_nil_r, <- ?app_assoc; cbn [List.app].
       destruct Ea as [-> | (gig_id & rep' & -> & C)]; [constructor|].
       apply cycle_apply_raised. intros rsp E E9. specialize (C rsp E E9). discriminate C. }
  rewrite bind_print, advance_advance in H.
  apply bind_inv in H as [(apps & w3 & Hc & H) | (e & Hc & ->)];
    apply check_applications_run in Hc as (rep_c & rest_c & -> & Exc & C);
    rewrite ?advance_advance in *; cbn [List.app self advance] in *.
  2: { eexists. split; [reflexivity|]. norm_ex; rewrite ?Ex, ?Exc, ?app_nil_r, <- ?app_assoc; cbn [List.app].
       apply cycle_checked; [|constructor|discriminate].
       destruct Ea as [-> | (gig_id & rep' & -> & _)]; cbn [List.app]; eauto. }
  rewrite bind_lift in H.
  destruct (Py.iter apps) as [items|e] eqn:Ei.
  2: { inversion H; subst. eexists. split; [reflexivity|]. norm_ex; rewrite ?Ex, ?Exc, ?app_nil_r, <- ?app_assoc; cbn [List.app].
       apply cycle_checked; [|constructor|discriminate].
       destruct Ea as [-> | (gig_id & rep' & -> & _)]; cbn [List.app]; eauto. }
  apply work_on_accepted_run in H as (ew & -> & Fw & Sw).
  rewrite advance_advance. cbn [self advance] in *.
  eexists. split; [reflexivity|]. norm_ex; rewrite ?Ex, ?Exc, ?app_nil_r, <- ?app_assoc; cbn [List.app].
  apply cycle_checked; [| assumption |].
  - destruct Ea as [-> | (gig_id & rep' & -> & _)]; cbn [List.app]; eauto.
  - intros -> data items' E Eg.
    rewrite (C apps data eq_refl E) in Eg. inversion Eg; subst.
    cbn [Py.iter] in Ei. inversion Ei; subst. now apply Sw.
Qed.

(** The requests of the different methods are told apart by method and URL. *)
Lemma browse_is_not_apply (a : agent) (st : string) (a' : agent) (g p : pyval) :
  browse_request a st <> apply_request a' g p.
Proof. intros E. apply (f_equal method) in E. discriminate E. Qed.

Lemma applications_is_not_apply (a a' : agent) (g p : pyval) :
  applications_request a <> apply_request a' g p.
Proof. intros E. apply (f_equal method) in E. discriminate E. Qed.

Lemma delivery_is_not_apply (a : agent) (g : pyval) (c : string) (a' : agent) (g' p : pyval) :
  deliverable_request a g c <> apply_request a' g' p.
Proof.
  intros E. apply (f_equal url) in E. cbn in E. discriminate E.
Qed.

Lemma browse_is_not_applications (a : agent) (st : string) (a' : agent) :
  browse_request a st <> applications_request a'.
Proof. intros E. apply (f_equal url) in E. cbn in E. discriminate E. Qed.

Lemma delivery_is_not_applications (a : agent) (g : pyval) (c : string) (a' : agent) :
  deliverable_request a g c <> applications_request a'.
Proof. intros E. apply (f_equal method) in E. discriminate E. Qed.

Lemma submitted_deliveries_only (a : agent) (rep : reply) (applied : list (request * reply))
    (rep_c : reply) (ds : list (request * reply)) :
  (applied = [] \/ exists gig_id rep', applied = [(apply_request a gig_id PNone, rep')]) ->
  submitted ((browse_request a "open", rep) :: applied ++ (applications_request a, rep_c) :: ds)
  = submitted ds.
Proof.
  intros [-> | (g & rep' & ->)]; reflexivity.
Qed.

(** ** The cycle *)

(** C5: an apply call answered with 409 raises nothing and returns none, and
    in a cycle the exchange that follows such an apply call is the listing of
    the applications. *)
Theorem apply_conflict_absorbed :
  (forall gig_id proposal w rsp,
     net (trace w) (apply_request (self w) gig_id proposal) = Resp rsp ->
     status_code rsp = 409 ->
     apply_to_gig net gig_id proposal w
     = (Ok PNone,
        advance w [Http (apply_request (self w) gig_id proposal) (Resp rsp);
                   Print MsgAlreadyApplied]))
  /\ (forall w gig_id proposal rsp,
        In (apply_request (self w) gig_id proposal, Resp rsp)
           (exchanges (events_since w (snd (run_once net w)))) ->
        status_code rsp = 409 ->
        exists before rep after,
          exchanges (events_since w (snd (run_once net w)))
          = (before ++ (apply_request (self w) gig_id proposal, Resp rsp)
                    :: (applications_request (self w), rep) :: after)%list).
Proof.
  split.
  - intros gig_id proposal w rsp E E9.
    unfold apply_to_gig. cbv [bind get_self http]. rewrite E, E9.
    cbv [print emit ret]. unfold advance. cbn [self disk trace Z.eqb Pos.eqb].
    now rewrite <- app_assoc.
  - intros w gig_id proposal rsp Hin E9.
    destruct (run_once net w) as [r w'] eqn:H.
    apply run_once_run in H as (evs & -> & Sh).
    cbn [snd] in *. rewrite events_since_advance in *.
    inversion Sh as [rep Eq | rep g rep' N Eq | rep applied rep_c ds A F S Eq];
      rewrite <- Eq in Hin.
    + destruct Hin as [E|[]]. apply pair_equal_spec in E as [E1 E2].
      now apply browse_is_not_apply in E1.
    + destruct Hin as [E|[E|[]]]; apply pair_equal_spec in E as [E1 E2].
      * now apply browse_is_not_apply in E1.
      * subst rep'. now apply N in E9.
    + destruct Hin as [E|Hin].
      { apply pair_equal_spec in E as [E1 E2]. now apply browse_is_not_apply in E1. }
      apply in_app_or in Hin as [Hin|[E|Hin]].
      * destruct A as [-> | (g & rep' & ->)]; [destruct Hin|].
        destruct Hin as [E|[]]. rewrite E.
        exists [(browse_request (self w) "open", rep)], rep_c, ds. reflexivity.
      * apply pair_equal_spec in E as [E1 E2]. now apply applications_is_not_apply in E1.
      * rewrite Forall_forall in F. destruct (F _ Hin) as (g & c & E).
        cbn [fst] in E. symmetry in E. now apply delivery_is_not_apply in E.
Qed.

(** C3, as the code has it: in a cycle that ends normally and whose
    applications listing was answered with the applications [apps], the
    deliverables posted are, in order, one for each application that is
    accepted and embeds a gig with a usable id. *)
Theorem accepted_with_gig_fulfilled (w w' : world) (data : pyval) (apps : list pyval) :
  run_once net w = (Ok tt, w') ->
  In (applications_request (self w), Resp (mkResponse 200 (Some data)))
     (exchanges (events_since w w')) ->
  Py.get data "applications" (PList []) = Ok (PList apps) ->
  submitted (exchanges (events_since w w'))
  = map embedded_gig_id (filter fulfillable apps)
  /\ List.length (submitted (exchanges (events_since w w')))
     = List.length (filter fulfillable apps).
Proof.
  intros H Hin Hg.
  cut (submitted (exchanges (events_since w w'))
       = map embedded_gig_id (filter fulfillable apps)).
  { intros E. split; [exact E|]. rewrite E. apply length_map. }
  apply run_once_run in H as (evs & -> & Sh).
  rewrite events_since_advance in *.
  inversion Sh as [rep Eq | rep g rep' N Eq | rep applied rep_c ds A F S Eq];
    rewrite <- Eq in Hin.
  - destruct Hin as [E|[]]. apply pair_equal_spec in E as [E1 E2].
    now apply browse_is_not_applications in E1.
  - destruct Hin as [E|[E|[]]]; apply pair_equal_spec in E as [E1 E2].
    + now apply browse_is_not_applications in E1.
    + symmetry in E1. now apply applications_is_not_apply in E1.
  - rewrite submitted_deliveries_only by assumption.
    destruct Hin as [E|Hin].
    { apply pair_equal_spec in E as [E1 E2]. now apply browse_is_not_applications in E1. }
    apply in_app_or in Hin as [Hin|[E|Hin]].
    + destruct A as [-> | (g & rep' & ->)]; [destruct Hin|].
      destruct Hin as [E|[]]. apply pair_equal_spec in E as [E1 E2].
      symmetry in E1. now apply applications_is_not_apply in E1.
    + apply pair_equal_spec in E as [_ E2]. now apply (S eq_refl data apps).
    + rewrite Forall_forall in F. destruct (F _ Hin) as (g & c & E).
      cbn [fst] in E. symmetry in E. now apply delivery_is_not_applications in E.
Qed.

(** C2, as the code has it: a task listing answered with a non-success status
    gives the empty list without raising; and a cycle whose listing is empty
    ends there, normally, having printed that no gig is open. *)
Theorem failed_listing_ends_cycle :
  (forall status w rsp,
     net (trace w) (browse_request (self w) status) = Resp rsp ->
     status_code rsp <> 200 ->
     browse_gigs net status w
     = (Ok (PList []),
        advance w [Http (browse_request (self w) status) (Resp rsp);
                   Print (MsgFetchGigsFailed (status_code rsp))]))
  /\ (forall w gigs w1,
        browse_gigs net "open"
          (advance w [Print MsgRule; Print (MsgRunningCycle (name (self w))); Print MsgRule])
        = (Ok gigs, w1) ->
        Py.truthy gigs = false ->
        run_once net w = (Ok tt, advance w1 [Print MsgNoOpenGigs]))
  /\ (forall w rsp,
        net (trace w ++ [Print MsgRule; Print (MsgRunningCycle (name (self w))); Print MsgRule])
            (browse_request (self w) "open") = Resp rsp ->
        status_code rsp <> 200 ->
        run_once net w
        = (Ok tt,
           advance w [Print MsgRule; Print (MsgRunningCycle (name (self w))); Print MsgRule;
                      Http (browse_request (self w) "open") (Resp rsp);
                      Print (MsgFetchGigsFailed (status_code rsp));
                      Print MsgNoOpenGigs])).
Proof.
  assert (Hlist : forall status w rsp,
             net (trace w) (browse_request (self w) status) = Resp rsp ->
             status_code rsp <> 200 ->
             browse_gigs net status w
             = (Ok (PList []),
                advance w [Http (browse_request (self w) status) (Resp rsp);
                           Print (MsgFetchGigsFailed (status_code rsp))])).
  { intros status w rsp E N.
    unfold browse_gigs. cbv [bind get_self http]. rewrite E.
    apply Z.eqb_neq in N. rewrite N.
    cbv [print emit ret]. unfold advance. cbn [self disk trace].
    now rewrite <- app_assoc. }
  assert (Hstop : forall w gigs w1,
             browse_gigs net "open"
               (advance w [Print MsgRule; Print (MsgRunningCycle (name (self w))); Print MsgRule])
             = (Ok gigs, w1) ->
             Py.truthy gigs = false ->
             run_once net w = (Ok tt, advance w1 [Print MsgNoOpenGigs])).
  { intros w gigs w1 Hb Hf.
    unfold run_once. rewrite bind_get_self, !bind_print, !advance_advance. cbn [List.app].
    unfold bind at 1. rewrite Hb, Hf. reflexivity. }
  split; [exact Hlist|]. split; [exact Hstop|].
  intros w rsp E N.
  rewrite (Hstop w (PList []) _
             (Hlist "open"
                (advance w [Print MsgRule; Print (MsgRunningCycle (name (self w)));
                            Print MsgRule])
                rsp E N) eq_refl).
  now rewrite !advance_advance.
Qed.


(** What [apply_to_gig] returns when it returns: none on every status but
    201 (whenever the body decodes, and always on 409), and something else
    than none on 201 only. *)
Lemma apply_to_gig_results (gig_id proposal : pyval) (w : world) (rsp : response) :
  net (trace w) (apply_request (self w) gig_id proposal) = Resp rsp ->
  (status_code rsp <> 201 ->
   (status_code rsp = 409 \/ exists b, body rsp = Some b) ->
   fst (apply_to_gig net gig_id proposal w) = Ok PNone)
  /\ (forall v, fst (apply_to_gig net gig_id proposal w) = Ok v ->
                v <> PNone -> status_code rsp = 201).
Proof.
  intros E. unfold apply_to_gig. cbv [bind get_self http json_of]. rewrite E.
  destruct (status_code rsp =? 201) eqn:S1; [apply Z.eqb_eq in S1|apply Z.eqb_neq in S1].
  - split; [intros N; now elim N|]. auto.
  - split.
    + intros _ [S9|(b & Eb)].
      * rewrite S9. reflexivity.
      * rewrite Eb. destruct (status_code rsp =? 409); reflexivity.
    + intros v. destruct (status_code rsp =? 409); [|destruct (body rsp)];
        cbn; intros Ev Nv; inversion Ev; subst; now elim Nv.
Qed.

(** C10: on a failure status other than 409 whose body does not decode,
    [apply_to_gig] raises from the line that reports the failure, where the
    claim has it return none. *)
Theorem apply_failure_log_raises (gig_id proposal : pyval) (w : world) (rsp : response) :
  net (trace w) (apply_request (self w) gig_id proposal) = Resp rsp ->
  status_code rsp <> 201 ->
  status_code rsp <> 409 ->
  body rsp = None ->
  apply_to_gig net gig_id proposal w
  = (Raise JSONDecodeError,
     advance w [Http (apply_request (self w) gig_id proposal) (Resp rsp)]).
Proof.
  intros E N1 N9 Eb.
  unfold apply_to_gig. cbv [bind get_self http json_of]. rewrite E.
  apply Z.eqb_neq in N1, N9. rewrite N1, N9, Eb. reflexivity.
Qed.

(** ** The agent and the disk are left alone *)

Lemma steady_ret {A} (x : A) : steady (ret x).
Proof.
  intros w r w' H. inversion H; subst. exists []. now rewrite advance_nil.
Qed.

Lemma steady_bind {A B} (m : M A) (k : A -> M B) :
  steady m -> (forall x, steady (k x)) -> steady (bind m k).
Proof.
  intros Hm Hk w r w' H.
  apply bind_inv in H as [(x & w1 & H1 & H2) | (e & H1 & ->)].
  - apply Hm in H1 as (e1 & -> & F1). apply Hk in H2 as (e2 & -> & F2).
    exists (e1 ++ e2)%list. rewrite advance_advance, exchanges_app.
    split; [reflexivity|]. apply Forall_app. now split.
  - now apply Hm in H1.
Qed.

Lemma steady_try {A} (m : M A) (h : exn -> M A) :
  steady m -> (forall e, steady (h e)) -> steady (try_except m h).
Proof.
  intros Hm Hh w r w' H. unfold try_except in H.
  destruct (m w) as [[x|e] w1] eqn:E.
  - inversion H; subst. now apply Hm in E.
  - apply Hm in E as (e1 & -> & F1). apply Hh in H as (e2 & -> & F2).
    exists (e1 ++ e2)%list. rewrite advance_advance, exchanges_app.
    split; [reflexivity|]. apply Forall_app. now split.
Qed.

Lemma steady_print (m : message) : steady (print m).
Proof.
  intros w r w' H. inversion H; subst. exists [Print m]. split; [reflexivity|constructor].
Qed.

Lemma steady_sleep (n : Z) : steady (sleep n).
Proof.
  intros w r w' H. unfold sleep in H.
  destruct ((n <? - SLEEP_MAX) || (SLEEP_MAX <? n))%bool;
    [|destruct (n <? 0);
      [|destruct ((n <=? SLEEP_SURE) || served w (trace w) n)%bool]];
    inversion H; subst;
    try (exists []; now rewrite advance_nil).
  exists [Sleep n]. split; [reflexivity|constructor].
Qed.

Lemma steady_forget {A} (m : M A) : steady m -> steady (forget m).
Proof. intros H. apply steady_bind; [exact H|]. intros x. apply steady_ret. Qed.

Lemma steady_browse_gigs (status : string) : steady (browse_gigs net status).
Proof.
  intros w r w' H. apply browse_gigs_run in H as (rep & rest & -> & Ex).
  eexists. split; [reflexivity|]. cbn [exchanges]. rewrite Ex. now repeat constructor.
Qed.

Lemma steady_apply_to_gig (gig_id proposal : pyval) :
  steady (apply_to_gig net gig_id proposal).
Proof.
  intros w r w' H. apply apply_to_gig_run in H as (rep & rest & -> & Ex & _).
  eexists. split; [reflexivity|]. cbn [exchanges]. rewrite Ex. now repeat constructor.
Qed.

Lemma steady_check_applications : steady (check_applications net).
Proof.
  intros w r w' H. apply check_applications_run in H as (rep & rest & -> & Ex & _).
  eexists. split; [reflexivity|]. cbn [exchanges]. rewrite Ex. now repeat constructor.
Qed.

Lemma steady_submit_deliverable (gig_id : pyval) (content : string) :
  steady (submit_deliverable net gig_id content).
Proof.
  intros w r w' H. apply submit_deliverable_run in H as (rep & rest & -> & Ex).
  eexists. split; [reflexivity|]. cbn [exchanges]. rewrite Ex. now repeat constructor.
Qed.

Lemma steady_do_work (gig : pyval) : steady (do_work gig).
Proof.
  intros w r w' H. apply do_work_run in H as (rest & -> & Ex).
  eexists. split; [reflexivity|]. rewrite Ex. constructor.
Qed.

Lemma cycle_shape_from_agent (a : agent) (r : result unit) (exs : list (request * reply)) :
  cycle_shape a r exs -> Forall (from_agent a) exs.
Proof.
  intros Sh. destruct Sh as [rep | rep g rep' N | rep applied rep_c ds A F S].
  - now repeat constructor.
  - now repeat constructor.
  - constructor; [reflexivity|]. apply Forall_app. split.
    + destruct A as [-> | (g & rep' & ->)]; now repeat constructor.
    + constructor; [reflexivity|].
      eapply Forall_impl; [|exact F]. intros x (g & c & E).
      unfold from_agent. now rewrite E.
Qed.

Lemma steady_run_once : steady (run_once net).
Proof.
  intros w r w' H. apply run_once_run in H as (evs & -> & Sh).
  exists evs. split; [reflexivity|]. now apply (cycle_shape_from_agent _ r).
Qed.

Lemma steady_loop_turn (interval : Z) : steady (loop_turn net interval).
Proof.
  unfold loop_turn. apply steady_bind.
  - apply steady_try; [apply steady_run_once|]. intros e. apply steady_print.
  - intros _. apply steady_bind; [apply steady_print|]. intros _. apply steady_sleep.
Qed.

Lemma steady_loop_turns (interval : Z) (turns : nat) :
  steady (loop_turns net turns interval).
Proof.
  induction turns as [|n IH]; cbn [loop_turns].
  - apply steady_ret.
  - apply steady_bind; [apply steady_loop_turn|]. intros _. exact IH.
Qed.

(** With a key, [register] does nothing but say so. *)
Lemma register_known (w : world) :
  Py.truthy (api_key (self w)) = true ->
  register net w = (Ok true, advance w [Print (MsgAlreadyRegistered (name (self w)))]).
Proof.
  intros T. unfold register. rewrite bind_get_self, T. reflexivity.
Qed.

Lemma steady_perform (op : operation) (w : world) :
  Py.truthy (api_key (self w)) = true ->
  forall r w', perform net op w = (r, w') ->
    exists evs, w' = advance w evs /\ Forall (from_agent (self w)) (exchanges evs).
Proof.
  intros T r w'. destruct op; cbn [perform].
  - unfold forget, bind. rewrite (register_known w T). intros H. inversion H; subst.
    eexists. split; [reflexivity|]. constructor.
  - apply steady_forget, steady_browse_gigs.
  - apply steady_forget, steady_apply_to_gig.
  - apply steady_forget, steady_check_applications.
  - apply steady_forget, steady_submit_deliverable.
  - apply steady_forget, steady_do_work.
  - apply steady_run_once.
  - apply steady_forget. unfold run_loop.
    apply steady_bind; [apply steady_print|]. intros _. apply steady_loop_turns.
Qed.

Lemma from_agent_carries_key (a : agent) (x : request * reply) :
  Py.truthy (api_key a) = true -> from_agent a x -> carries_key (api_key a) (fst x).
Proof.
  unfold from_agent, carries_key, _headers. intros T E. rewrite E, T.
  right. left. reflexivity.
Qed.

(** A new agent object takes its identity from the state file. *)
Lemma load_state_reads_key (name0 : string) (caps : list string) (w0 : world)
    (d : list (string * pyval)) (k : pyval) :
  disk w0 = Stored (PDict d) ->
  Py.lookup "api_key" d = Some k ->
  exists a,
    __init__ name0 caps w0
    = (Ok tt, mkWorld a (disk w0) (trace w0 ++ [Print (MsgLoaded (name a))]) (served w0))
    /\ api_key a = k
    /\ user_id a = match Py.lookup "user_id" d with Some u => u | None => PNone end
    /\ name a = match Py.lookup "name" d with Some n => n | None => PStr name0 end
    /\ capabilities a = caps.
Proof.
  intros D K. unfold __init__, _load_state.
  cbv [bind set_self read_file get_self set_api_key set_user_id set_name lift print emit].
  cbn [self disk trace]. rewrite D. cbn [Py.get]. rewrite K.
  cbn [self disk trace name capabilities api_key user_id].
  exists (mkAgent (match Py.lookup "name" d with Some n => n | None => PStr name0 end)
                  caps k
                  (match Py.lookup "user_id" d with Some u => u | None => PNone end)).
  cbn [name capabilities api_key user_id]. auto.
Qed.

(** C8: with a key, no operation changes the key or the state file, and every
    request an operation makes carries the key in its headers; a later process
    started on the same state file has the same key; and a successful
    registration leaves the key it obtained in the state file. *)
Theorem api_key_kept :
  (forall op w r w',
     Py.truthy (api_key (self w)) = true ->
     perform net op w = (r, w') ->
     api_key (self w') = api_key (self w)
     /\ disk w' = disk w
     /\ forall req rep, In (req, rep) (exchanges (events_since w w')) ->
                       carries_key (api_key (self w)) req)
  /\ (forall name0 caps w w0,
        key_on_disk w -> disk w0 = disk w ->
        fst (__init__ name0 caps w0) = Ok tt
        /\ api_key (self (snd (__init__ name0 caps w0))) = api_key (self w)
        /\ key_on_disk (snd (__init__ name0 caps w0)))
  /\ (forall w w',
        Py.truthy (api_key (self w)) = false ->
        register net w = (Ok true, w') ->
        key_on_disk w').
Proof.
  split; [|split].
  - intros op w r w' T H.
    apply (steady_perform op w T) in H as (evs & -> & F).
    split; [reflexivity|]. split; [reflexivity|].
    rewrite events_since_advance. intros req rep Hin.
    rewrite Forall_forall in F.
    apply (from_agent_carries_key (self w) (req, rep) T). now apply F.
  - intros name0 caps w w0 (d & D & K) E. rewrite <- E in D.
    destruct (load_state_reads_key name0 caps w0 d _ D K) as (a & -> & Ka & _).
    cbn [fst snd self]. split; [reflexivity|]. split; [exact Ka|].
    exists d. cbn [disk self]. rewrite Ka. now split.
  - intros w w' T H. unfold register, _save_state in H.
    rewrite bind_get_self, T in H. unfold_monad H. cbn [self disk trace] in H.
    split_run H; inversion H; subst; clear H.
    eexists. cbn [disk self api_key]. split; reflexivity.
Qed.

(** C6: an agent that holds a key registers without any request, and reports
    success; an agent created over a state file with a non-empty key makes no
    request to register, keeps the file, and has the stored key, user id and
    name. *)
Theorem registration_skipped_when_key_stored :
  (forall w,
     Py.truthy (api_key (self w)) = true ->
     register net w
     = (Ok true, advance w [Print (MsgAlreadyRegistered (name (self w)))]))
  /\ (forall name0 caps w d k,
        disk w = Stored (PDict d) ->
        Py.lookup "api_key" d = Some k ->
        Py.truthy k = true ->
        exists w',
          bind (__init__ name0 caps) (fun _ => register net) w = (Ok true, w')
          /\ exchanges (events_since w w') = []
          /\ disk w' = disk w
          /\ api_key (self w') = k
          /\ user_id (self w')
             = match Py.lookup "user_id" d with Some u => u | None => PNone end
          /\ name (self w')
             = match Py.lookup "name" d with Some n => n | None => PStr name0 end).
Proof.
  split; [exact register_known|].
  intros name0 caps w d k D K T.
  destruct (load_state_reads_key name0 caps w d k D K) as (a & E & Ka & Ua & Na & _).
  unfold bind at 1. rewrite E. rewrite register_known by (cbn [self]; now rewrite Ka).
  eexists. split; [reflexivity|].
  unfold advance, events_since. cbn [self disk trace].
  rewrite <- app_assoc, skipn_length_app. cbn [List.app exchanges]. auto.
Qed.

(** ** Continuous operation *)




End Runs.

(** ** Instances *)

Lemma apply_conflict_absorbed_witness :
  apply_to_gig (Sample.market [] Sample.created) (PStr "g2") PNone Sample.fresh
  = (Ok PNone,
     advance Sample.fresh
       [Http (apply_request Sample.bot (PStr "g2") PNone) (Resp (mkResponse 409 None));
        Print MsgAlreadyApplied])
  /\ exists before rep after,
       exchanges (events_since Sample.fresh
                    (snd (run_once (Sample.market [] Sample.created) Sample.fresh)))
       = (before ++ (apply_request (self Sample.fresh) (PStr "g2") PNone,
                     Resp (mkResponse 409 None))
                 :: (applications_request (self Sample.fresh), rep) :: after)%list.
Proof.
  split.
  - apply (proj1 (apply_conflict_absorbed (Sample.market [] Sample.created))
             (PStr "g2") PNone Sample.fresh (mkResponse 409 None)).
    + reflexivity.
    + reflexivity.
  - apply (proj2 (apply_conflict_absorbed (Sample.market [] Sample.created))
             Sample.fresh (PStr "g2") PNone (mkResponse 409 None)).
    + vm_compute. right. left. reflexivity.
    + reflexivity.
Defined.

Lemma accepted_with_gig_fulfilled_witness :
  submitted (exchanges (events_since Sample.fresh
               (snd (run_once (Sample.market Sample.applications Sample.created) Sample.fresh))))
  = map embedded_gig_id (filter fulfillable Sample.applications)
  /\ List.length
       (submitted (exchanges (events_since Sample.fresh
          (snd (run_once (Sample.market Sample.applications Sample.created) Sample.fresh)))))
     = List.length (filter fulfillable Sample.applications).
Proof.
  apply (accepted_with_gig_fulfilled (Sample.market Sample.applications Sample.created)
           Sample.fresh _ (PDict [("applications", PList Sample.applications)])).
  - vm_compute. reflexivity.
  - vm_compute. right. right. left. reflexivity.
  - reflexivity.
Defined.

(** C3, as the specification words it, fails: an accepted application without
    an embedded gig gets no deliverable. *)
Lemma fulfils_every_accepted_fails :
  ~ fulfils_every_accepted (Sample.market [Sample.orphan_application] Sample.created) Sample.fresh.
Proof.
  intros H.
  specialize (H (PDict [("applications", PList [Sample.orphan_application])])
                [Sample.orphan_application]).
  assert (C : 0%nat = 1%nat).
  { apply H.
    - vm_compute. right. right. left. reflexivity.
    - reflexivity. }
  discriminate C.
Qed.

Lemma failed_listing_ends_cycle_witness :
  run_once Sample.broken Sample.fresh
  = (Ok tt,
     advance Sample.fresh
       [Print MsgRule; Print (MsgRunningCycle (name (self Sample.fresh))); Print MsgRule;
        Http (browse_request (self Sample.fresh) "open") (Resp (mkResponse 500 None));
        Print (MsgFetchGigsFailed (status_code (mkResponse 500 None)));
        Print MsgNoOpenGigs]).
Proof.
  apply (proj2 (proj2 (failed_listing_ends_cycle Sample.broken))
           Sample.fresh (mkResponse 500 None)).
  - reflexivity.
  - cbn. lia.
Defined.

(** C2, as the specification words it, fails: after a failed task listing the
    cycle makes no further request. *)
Lemma listing_failure_continues_fails :
  ~ listing_failure_continues Sample.broken Sample.fresh.
Proof.
  intros H.
  destruct (H (mkResponse 500 None)) as [rep Hin].
  - vm_compute. left. reflexivity.
  - cbn. discriminate.
  - vm_compute in Hin. destruct Hin as [E|[]]. discriminate E.
Qed.



Lemma registration_skipped_witness :
  exists w',
    bind (__init__ "ExampleAgent-zz99" CAPABILITIES) (fun _ => register Sample.offline)
         Sample.returning = (Ok true, w')
    /\ exchanges (events_since Sample.returning w') = []
    /\ disk w' = disk Sample.returning
    /\ api_key (self w') = PStr "sk-1"
    /\ user_id (self w') = PStr "u1"
    /\ name (self w') = PStr "ExampleAgent-a1b2".
Proof.
  apply (proj2 (registration_skipped_when_key_stored Sample.offline)
           "ExampleAgent-zz99" CAPABILITIES Sample.returning
           [("api_key", PStr "sk-1"); ("user_id", PStr "u1"); ("name", PStr "ExampleAgent-a1b2")]
           (PStr "sk-1")).
  - reflexivity.
  - reflexivity.
  - reflexivity.
Defined.

Lemma api_key_kept_witness :
  (api_key (self (snd Sample.cycle)) = api_key (self Sample.fresh)
   /\ disk (snd Sample.cycle) = disk Sample.fresh
   /\ forall req rep,
        In (req, rep) (exchanges (events_since Sample.fresh (snd Sample.cycle))) ->
        carries_key (api_key (self Sample.fresh)) req)
  /\ key_on_disk (snd (register Sample.registrar Sample.newcomer))
  /\ api_key (self (snd (__init__ "ExampleAgent-qq00" CAPABILITIES
                           (advance (snd (register Sample.registrar Sample.newcomer)) []))))
     = PStr "sk-2".
Proof.
  assert (K : key_on_disk (snd (register Sample.registrar Sample.newcomer))).
  { apply (proj2 (proj2 (api_key_kept Sample.registrar)) Sample.newcomer).
    - reflexivity.
    - vm_compute. reflexivity. }
  split; [|split; [exact K|]].
  - apply (proj1 (api_key_kept (Sample.market Sample.applications Sample.created))
             OpCycle Sample.fresh (fst Sample.cycle)).
    + reflexivity.
    + vm_compute. reflexivity.
  - apply (proj1 (proj2 (api_key_kept Sample.offline)) "ExampleAgent-qq00" CAPABILITIES
             (snd (register Sample.registrar Sample.newcomer)) _ K).
    reflexivity.
Defined.



Lemma apply_failure_log_raises_witness :
  apply_to_gig Sample.broken (PStr "g2") PNone Sample.fresh
  = (Raise JSONDecodeError,
     advance Sample.fresh
       [Http (apply_request Sample.bot (PStr "g2") PNone) (Resp (mkResponse 500 None))]).
Proof.
  apply (apply_failure_log_raises Sample.broken (PStr "g2") PNone Sample.fresh
           (mkResponse 500 None)).
  - reflexivity.
  - cbn. lia.
  - cbn. lia.
  - reflexivity.
Defined.

(** ** Checks on the model *)

(** The example of the specification: the first task matches nothing, the
    second matches on its category. *)
Example specification_example :
  find_matching_gig (mkAgent (PStr "A") ["writing"] PNone PNone)
    (PList [Sample.data_cleanup_gig; Sample.misc_writing_gig])
  = Ok Sample.misc_writing_gig.
Proof. reflexivity. Qed.

Example str_of_required_capabilities :
  Py.lower (Py.str (PList [PStr "Research"; PStr "SEO"])) = "['research', 'seo']".
Proof. reflexivity. Qed.

Example empty_capability_matches_anything :
  find_matching_gig (mkAgent (PStr "A") [""] PNone PNone) (PList [Sample.unrelated_gig])
  = Ok Sample.unrelated_gig.
Proof. reflexivity. Qed.

Example gig_without_category_text :
  find_matching_gig Sample.bot (PList [PDict [("category", PNone)]]) = Raise AttributeError.
Proof. reflexivity. Qed.

Example registration_writes_the_state_file :
  disk (snd (register Sample.registrar Sample.newcomer))
  = Stored (PDict [("api_key", PStr "sk-2"); ("user_id", PStr "u2");
                   ("name", PStr "ExampleAgent-zz99")]).
Proof. reflexivity. Qed.

Example offline_loop_keeps_turning :
  exchanges (trace (snd (run_loop Sample.offline 2 300 Sample.fresh)))
  = [(browse_request Sample.bot "open", NetErr); (browse_request Sample.bot "open", NetErr)].
Proof. reflexivity. Qed.

Example negative_delay_stops_the_loop :
  fst (run_loop Sample.offline 2 (-1) Sample.fresh) = Raise ValueError.
Proof. reflexivity. Qed.

Example unconvertible_delay_stops_the_loop :
  fst (run_loop Sample.offline 2 10000000000 Sample.fresh) = Raise OverflowError.
Proof. reflexivity. Qed.

Example machine_refuses_a_long_delay :
  fst (run_loop Sample.offline 2 9223372036
         (mkWorld Sample.bot Absent [] (fun _ _ => false)))
  = Raise OSError.
Proof. reflexivity. Qed.

Example accented_category_is_matched :
  find_matching_gig (mkAgent (PStr "A") ["résumé"] PNone PNone)
    (PList [Sample.unrelated_gig; Sample.resume_gig])
  = Ok Sample.resume_gig.
Proof. reflexivity. Qed.

Example lower_of_final_sigma : Py.lower "ΟΔΟΣ ΣΑΣ" = "οδος σας".
Proof. reflexivity. Qed.

Example repr_escapes_no_break_space :
  Py.lower (Py.str (PList [PStr [160%N]])) = "['\xa0']".
Proof. reflexivity. Qed.

Example excerpt_counts_characters :
  List.length (Py.take 200 (List.concat (List.repeat "⚡" 70))) = 70%nat.
Proof. reflexivity. Qed.


(** * More properties of the code *)

(** ** Strings and the matcher *)

Lemma prefix_split (n h : string) :
  Str.prefix n h = true <-> exists after, h = (n ++ after)%list.
Proof.
  revert h. induction n as [|c n IH]; intros h.
  - split; [intros _; exists h; reflexivity|]. intros _. destruct h; reflexivity.
  - destruct h as [|c' h]; cbn [Str.prefix].
    + split; [discriminate|]. intros (after & E). discriminate E.
    + destruct (N.eqb_spec c c') as [<-|N]; cbn [andb].
      * rewrite IH. split; intros (after & E); exists after.
        -- cbn. now rewrite E.
        -- cbn in E. now inversion E.
      * split; [discriminate|]. intros (after & E). cbn in E. inversion E. congruence.
Qed.

(** The substring test finds exactly the texts that occur. *)
Lemma contains_occurs (n h : string) : Py.contains n h = true <-> occurs n h.
Proof.
  induction h as [|c h IH]; cbn [Py.contains].
  - destruct (Str.prefix n []) eqn:P.
    + split; [intros _|reflexivity]. apply prefix_split in P as (after & E).
      exists [], after. exact E.
    + split; [discriminate|]. intros (before & after & E).
      destruct before; cbn in E.
      * assert (Str.prefix n [] = true) by (apply prefix_split; eauto). congruence.
      * discriminate E.
  - destruct (Str.prefix n (c :: h)) eqn:P.
    + split; [intros _|reflexivity]. apply prefix_split in P as (after & E).
      exists [], after. exact E.
    + rewrite IH. split.
      * intros (before & after & E). exists (c :: before), after. cbn. now rewrite E.
      * intros (before & after & E). destruct before as [|c' before]; cbn in E.
        -- assert (Str.prefix n (c :: h) = true) by (apply prefix_split; eauto). congruence.
        -- inversion E. exists before, after. reflexivity.
Qed.

Lemma existsb_lower (h : string -> bool) (caps : list string) :
  existsb (fun cap => h (Py.lower cap)) caps = existsb h (map Py.lower caps).
Proof. induction caps as [|c caps IH]; cbn; [reflexivity|now rewrite IH]. Qed.

Lemma category_hit_lower (caps : list string) (c : string) (g : pyval) :
  category_hit caps c g
  = existsb (fun l => (Py.contains l c || Py.contains l (Py.lower (Py.str g)))%bool)
            (map Py.lower caps).
Proof. unfold category_hit. now rewrite <- existsb_lower. Qed.

Lemma text_hit_lower (caps : list string) (t : string) :
  text_hit caps t = existsb (fun l => Py.contains l t) (map Py.lower caps).
Proof. unfold text_hit. now rewrite <- existsb_lower. Qed.

Lemma gig_matches_lower (caps1 caps2 : list string) (g : pyval) :
  map Py.lower caps1 = map Py.lower caps2 ->
  gig_matches caps1 g = gig_matches caps2 g.
Proof.
  intros E. unfold gig_matches, category_matches, text_matches, rbind.
  destruct (gig_category_of g) as [c|e]; [|reflexivity].
  destruct (Py.get g "required_capabilities" (PList [])) as [rc|e]; [|reflexivity].
  rewrite !category_hit_lower, E.
  destruct (existsb _ _); [reflexivity|].
  destruct (gig_text_of g) as [t|e]; [|reflexivity].
  now rewrite !text_hit_lower, E.
Qed.

Lemma first_match_lower (caps1 caps2 : list string) (gigs : list pyval) :
  map Py.lower caps1 = map Py.lower caps2 ->
  first_match caps1 gigs = first_match caps2 gigs.
Proof.
  intros E. induction gigs as [|g gigs IH]; cbn [first_match]; [reflexivity|].
  now rewrite (gig_matches_lower caps1 caps2 g E), IH.
Qed.

(** X1: the selection is blind to the case of the capabilities: two capability
    lists that agree once lowercased select the same gig. *)
Theorem find_matching_gig_ignores_case (a1 a2 : agent) (gigs : pyval) :
  map Py.lower (capabilities a1) = map Py.lower (capabilities a2) ->
  find_matching_gig a1 gigs = find_matching_gig a2 gigs.
Proof.
  intros E. unfold find_matching_gig, rbind.
  destruct (Py.iter gigs) as [items|e]; [|reflexivity].
  now rewrite (first_match_lower _ _ items E).
Qed.

Lemma find_matching_gig_ignores_case_witness :
  find_matching_gig Fixture.shouting (PList [Sample.unrelated_gig; Sample.category_gig])
  = find_matching_gig Fixture.whispering (PList [Sample.unrelated_gig; Sample.category_gig]).
Proof.
  apply find_matching_gig_ignores_case. reflexivity.
Defined.

Lemma first_match_member (caps : list string) (gigs : list pyval) (g : pyval) :
  first_match caps gigs = Ok (Some g) -> In g gigs.
Proof.
  induction gigs as [|x gigs IH]; cbn [first_match]; [discriminate|].
  unfold rbind. destruct (gig_matches caps x) as [[|]|e]; intros H.
  - inversion H. now left.
  - right. now apply IH.
  - discriminate.
Qed.

(** X2: what is selected is one of the listed gigs, and none is selected only
    from an empty list. *)
Theorem find_matching_gig_selects_listed (a : agent) (gigs : list pyval) (g : pyval) :
  find_matching_gig a (PList gigs) = Ok g ->
  (gigs = [] /\ g = PNone) \/ In g gigs.
Proof.
  unfold find_matching_gig. cbn [Py.iter rbind]. unfold rbind.
  destruct (first_match (capabilities a) gigs) as [[x|]|e] eqn:F; intros H.
  - inversion H; subst. right. eapply first_match_member; eauto.
  - destruct gigs as [|x gigs]; cbn in H; inversion H; subst; [now left|right; now left].
  - discriminate.
Qed.

Lemma find_matching_gig_selects_listed_witness :
  ([Sample.unrelated_gig; Sample.category_gig] = [] /\ Sample.category_gig = PNone)
  \/ In Sample.category_gig [Sample.unrelated_gig; Sample.category_gig].
Proof.
  apply (find_matching_gig_selects_listed Sample.bot). reflexivity.
Defined.

(** X3: what the two tests of a gig mean.  The first holds when some
    capability, lowercased, occurs in the lowercased category or in the
    lowercased rendering of the required capabilities; the second when it
    occurs in the lowercased title, a space, and description. *)
Theorem gig_tests_meaning (caps : list string) (d : list (string * pyval)) :
  (forall category,
     field d "category" (PStr "") = PStr category ->
     (category_matches caps (PDict d) = Ok true <->
      exists cap, In cap caps
        /\ (occurs (Py.lower cap) (Py.lower category)
            \/ occurs (Py.lower cap)
                 (Py.lower (Py.str (field d "required_capabilities" (PList [])))))))
  /\ (text_matches caps (PDict d) = Ok true <->
      exists cap, In cap caps
        /\ occurs (Py.lower cap)
             (Py.lower (Py.str (field d "title" (PStr "")) ++ " "
                          ++ Py.str (field d "description" (PStr ""))))).
Proof.
  unfold field. split.
  - intros category C.
    unfold category_matches, gig_category_of. cbn [Py.get rbind]. rewrite C.
    cbn [Py.lower_of rbind]. unfold category_hit.
    split.
    + intros H. injection H as H'. apply existsb_exists in H' as (cap & I & B).
      exists cap. split; [exact I|]. apply orb_true_iff in B.
      rewrite !contains_occurs in B. exact B.
    + intros (cap & I & B). f_equal. apply existsb_exists. exists cap. split; [exact I|].
      apply orb_true_iff. now rewrite !contains_occurs.
  - unfold text_matches, gig_text_of. cbn [Py.get rbind]. unfold text_hit.
    split.
    + intros H. injection H as H'. apply existsb_exists in H' as (cap & I & B).
      exists cap. split; [exact I|]. now apply contains_occurs.
    + intros (cap & I & B). f_equal. apply existsb_exists. exists cap. split; [exact I|].
      now apply contains_occurs.
Qed.

Lemma gig_tests_meaning_witness :
  exists cap, In cap ["résumé"]
    /\ (occurs (Py.lower cap) (Py.lower "RÉSUMÉ")
        \/ occurs (Py.lower cap) (Py.lower (Py.str (PList [])))).
Proof.
  apply (proj1 (gig_tests_meaning ["résumé"]
                  [("id", PStr "g9"); ("title", PStr "CV"); ("description", PStr "");
                   ("category", PStr "RÉSUMÉ"); ("budget_sats", PInt 40)]) "RÉSUMÉ" eq_refl).
  reflexivity.
Defined.

(** A listing that is a JSON object or a text, not an array, cannot be gone
    through: its items have no [get]. *)
Lemma find_matching_gig_not_an_array (a : agent) (gigs : pyval) :
  (exists kv d, gigs = PDict (kv :: d)) \/ (exists c s, gigs = PStr (c :: s)) ->
  find_matching_gig a gigs = Raise AttributeError.
Proof.
  intros [(kv & d & ->)|(c & s & ->)]; reflexivity.
Qed.

(** ** The state file *)

(** X4: the state file round trip: a new agent object created after
    [_save_state] has the saved key, user id and name, whatever name it is
    created with. *)
Theorem saved_state_is_loaded_back (name0 : string) (caps : list string) (w : world) :
  exists w',
    bind _save_state (fun _ => __init__ name0 caps) w = (Ok tt, w')
    /\ api_key (self w') = api_key (self w)
    /\ user_id (self w') = user_id (self w)
    /\ name (self w') = name (self w)
    /\ capabilities (self w') = caps
    /\ key_on_disk w'.
Proof.
  eexists. split.
  - unfold _save_state, __init__, _load_state.
    cbv [bind get_self write_file set_self read_file set_api_key set_user_id set_name lift
         print emit]. cbn. reflexivity.
  - cbn. repeat split; try reflexivity. eexists. split; reflexivity.
Qed.




(** ** The methods, one by one *)

Section Methods.
Variable net : list event -> request -> reply.



Lemma events_since_grow (w w' : world) (evs : list event) :
  trace w' = (trace w ++ evs)%list -> events_since w w' = evs.
Proof. intros E. unfold events_since. rewrite E. apply skipn_length_app. Qed.

Lemma app_same {A} (l e : list A) : l = (l ++ e)%list -> e = [].
Proof.
  intros E. rewrite <- (app_nil_r l) in E at 1. apply app_inv_head in E. now symmetry.
Qed.

Lemma count_app (p : request -> bool) (e1 e2 : list (request * reply)) :
  count p (e1 ++ e2) = (count p e1 + count p e2)%nat.
Proof. unfold count. now rewrite filter_app, length_app. Qed.

Lemma count_deliveries (p : request -> bool) (a : agent) (ds : list (request * reply)) :
  (forall g c, p (deliverable_request a g c) = false) ->
  Forall (is_delivery a) ds -> count p ds = 0%nat.
Proof.
  intros P F. induction F as [|x ds (g & c & E) F IH]; [reflexivity|].
  unfold count in *. cbn [filter]. now rewrite E, P.
Qed.

Lemma apply_is_application_post (a : agent) (g p : pyval) :
  is_application_post (apply_request a g p) = true.
Proof.
  unfold is_application_post, apply_request. cbn [method url].
  apply prefix_split. exists (Py.str g ++ "/apply")%list.
  reflexivity.
Qed.

(** X6: what a registration can change.  Answered false, it changed neither the
    agent nor the state file; it never changes the name or the capabilities;
    and the state file changes only after an answer 201 holding a key and a
    user id, to exactly that key, that user id and the name. *)
Theorem register_outcomes (w : world) (r : result bool) (w' : world) :
  register net w = (r, w') ->
  (r = Ok false -> self w' = self w /\ disk w' = disk w)
  /\ name (self w') = name (self w)
  /\ capabilities (self w') = capabilities (self w)
  /\ (disk w' = disk w
      \/ exists rsp data k user uid,
           In (register_request (self w), Resp rsp) (exchanges (events_since w w'))
           /\ status_code rsp = 201
           /\ body rsp = Some data
           /\ Py.getitem data "api_key" = Ok k
           /\ Py.getitem data "user" = Ok user
           /\ Py.getitem user "id" = Ok uid
           /\ api_key (self w') = k
           /\ user_id (self w') = uid
           /\ disk w' = Stored (PDict [("api_key", k); ("user_id", uid);
                                       ("name", name (self w))])).
Proof.
  unfold register, _save_state. intros H. unfold_monad H. cbn [self disk trace] in H.
  split_run H; inversion H; subst; clear H; cbn [self disk trace name capabilities];
    (split; [intros E; try discriminate E; split; reflexivity|]);
    (split; [reflexivity|]); (split; [reflexivity|]);
    try (left; reflexivity).
  all: right; do 5 eexists;
    (split; [unfold events_since; cbn [trace]; rewrite <- ?app_assoc, skipn_length_app;
             cbn; eauto|]);
    apply Z.eqb_eq in Heqb0; repeat (split; [eassumption || reflexivity|]); reflexivity.
Qed.

(** X7: a registration answered 201 with a key but no user id raises with the
    key already in the agent object and nothing written to the state file. *)
Theorem register_answer_without_user (w : world) (rsp : response) (data k : pyval) (e : exn) :
  Py.truthy (api_key (self w)) = false ->
  net (trace w ++ [Print (MsgRegistering (name (self w)))]) (register_request (self w))
  = Resp rsp ->
  status_code rsp = 201 ->
  body rsp = Some data ->
  Py.getitem data "api_key" = Ok k ->
  rbind (Py.getitem data "user") (fun user => Py.getitem user "id") = Raise e ->
  exists w',
    register net w = (Raise e, w')
    /\ api_key (self w') = k
    /\ user_id (self w') = user_id (self w)
    /\ disk w' = disk w.
Proof.
  intros T E S B K U.
  unfold register. rewrite bind_get_self, T, bind_print.
  cbv [bind http json_of]. cbn [trace advance]. rewrite E, S, B.
  cbn [Z.eqb Pos.eqb ret lift]. rewrite K.
  cbv [set_api_key bind get_self set_self lift]. cbn [self disk trace].
  unfold rbind in U. destruct (Py.getitem data "user") as [user|e'].
  - rewrite U. eexists. split; [reflexivity|]. cbn. auto.
  - inversion U; subst. eexists. split; [reflexivity|]. cbn. auto.
Qed.

(** A registration makes no request or the registration request alone. *)
Lemma register_run (w : world) (r : result bool) (w' : world) :
  register net w = (r, w') ->
  exists evs,
    trace w' = (trace w ++ evs)%list
    /\ (exchanges evs = []
        \/ exists rep, exchanges evs = [(register_request (self w), rep)]).
Proof.
  unfold register, _save_state. intros H. unfold_monad H. cbn [self disk trace] in H.
  split_run H; inversion H; subst; clear H; cbn [trace]; rewrite <- ?app_assoc;
    eexists; (split; [reflexivity|]); cbn [List.app exchanges]; eauto.
Qed.

(** X8: the requests of a registration: none for an agent that has a key, and for
    an agent without one exactly one, which carries no api key header. *)
Theorem register_requests (w : world) (r : result bool) (w' : world) :
  register net w = (r, w') ->
  (Py.truthy (api_key (self w)) = true -> exchanges (events_since w w') = [])
  /\ (Py.truthy (api_key (self w)) = false ->
      exists rep,
        exchanges (events_since w w') = [(register_request (self w), rep)]
        /\ headers (register_request (self w)) = [("Content-Type", PStr "application/json")]).
Proof.
  intros H. split; intros T.
  - rewrite (register_known net w T) in H. inversion H; subst.
    now rewrite events_since_advance.
  - unfold register in H. rewrite bind_get_self, T in H.
    unfold _save_state in H. unfold_monad H. cbn [self disk trace] in H.
    split_run H; inversion H; subst; clear H;
      unfold events_since; cbn [trace]; rewrite <- ?app_assoc, skipn_length_app;
      cbn [List.app exchanges]; eexists; (split; [reflexivity|]);
      unfold register_request, _headers; cbn [headers]; now rewrite T.
Qed.

(** X9: what [browse_gigs] returns.  It returns only after its one request was
    answered: on status 200 the decoded body, which then has a length (a
    text, an array or an object), with the count printed; on another status
    the empty list, with the status printed.  A body of status 200 that is
    null, a number or a boolean makes it raise instead. *)
Theorem browse_gigs_gives_a_sized_value (status : string) (w : world) :
  (forall gigs w',
     browse_gigs net status w = (Ok gigs, w') ->
     exists rsp,
       net (trace w) (browse_request (self w) status) = Resp rsp
       /\ ((status_code rsp = 200
            /\ body rsp = Some gigs
            /\ exists n,
                 Py.len gigs = Ok n /\ 0 <= n
                 /\ w' = advance w [Http (browse_request (self w) status) (Resp rsp);
                                    Print (MsgFoundGigs n status)])
           \/ (status_code rsp <> 200
               /\ gigs = PList []
               /\ w' = advance w [Http (browse_request (self w) status) (Resp rsp);
                                  Print (MsgFetchGigsFailed (status_code rsp))])))
  /\ (forall rsp v,
        net (trace w) (browse_request (self w) status) = Resp rsp ->
        status_code rsp = 200 ->
        body rsp = Some v ->
        (v = PNone \/ (exists b, v = PBool b) \/ (exists n, v = PInt n)) ->
        browse_gigs net status w
        = (Raise TypeError, advance w [Http (browse_request (self w) status) (Resp rsp)])).
Proof.
  split.
  - intros gigs w'. unfold browse_gigs.
    cbv [bind get_self http json_of lift print emit ret raise].
    destruct (net (trace w) (browse_request (self w) status)) as [rsp|] eqn:E; [|discriminate].
    cbn [self disk trace served].
    destruct (status_code rsp =? 200) eqn:S; [apply Z.eqb_eq in S|apply Z.eqb_neq in S].
    + destruct (body rsp) as [data|] eqn:B; [|discriminate].
      destruct (Py.len data) as [n|e] eqn:L; [|discriminate].
      intros H. inversion H; subst. exists rsp. split; [reflexivity|]. left.
      split; [exact S|]. split; [exact B|]. exists n. split; [exact L|]. split.
      * destruct gigs; cbn in L; try discriminate; inversion L; apply Nat2Z.is_nonneg.
      * unfold advance. cbn [self disk trace served]. now rewrite <- app_assoc.
    + intros H. inversion H; subst. exists rsp. split; [reflexivity|]. right.
      split; [exact S|]. split; [reflexivity|].
      unfold advance. cbn [self disk trace served]. now rewrite <- app_assoc.
  - intros rsp v E S B Hv. unfold browse_gigs.
    cbv [bind get_self http json_of lift print emit ret raise]. rewrite E, S, B.
    destruct Hv as [->|[(b & ->)|(n & ->)]]; reflexivity.
Qed.



(** X11: on an answer 200 whose body is not an object, or whose statistics are
    not one, [check_applications] raises instead of returning a list. *)
Theorem check_applications_needs_objects (w : world) (rsp : response) (data : pyval) :
  net (trace w) (applications_request (self w)) = Resp rsp ->
  status_code rsp = 200 ->
  body rsp = Some data ->
  ((forall d, data <> PDict d)
   \/ exists d v, data = PDict d /\ Py.lookup "stats" d = Some v /\ forall s, v <> PDict s) ->
  check_applications net w
  = (Raise AttributeError, advance w [Http (applications_request (self w)) (Resp rsp)]).
Proof.
  intros E S B St.
  unfold check_applications. cbv [bind get_self http json_of]. rewrite E, S, B.
  cbn [Z.eqb Pos.eqb ret lift].
  destruct St as [N|(d & v & -> & Es & N)].
  - destruct data; try reflexivity. now elim (N d).
  - cbn [Py.get]. rewrite Es. destruct v; try reflexivity. now elim (N d0).
Qed.





(** X14: whatever the agent holds, no operation but the registration changes the
    agent object or the state file. *)
Theorem only_registration_changes_identity (op : operation) (w : world) (r : result unit)
    (w' : world) :
  op <> OpRegister ->
  perform net op w = (r, w') ->
  self w' = self w /\ disk w' = disk w.
Proof.
  intros N H.
  assert (S : exists evs, w' = advance w evs /\ Forall (from_agent (self w)) (exchanges evs)).
  { destruct op; cbn [perform] in H.
    - now elim N.
    - eapply steady_forget; [apply steady_browse_gigs|exact H].
    - eapply steady_forget; [apply steady_apply_to_gig|exact H].
    - eapply steady_forget; [apply steady_check_applications|exact H].
    - eapply steady_forget; [apply steady_submit_deliverable|exact H].
    - eapply steady_forget; [apply steady_do_work|exact H].
    - eapply steady_run_once; exact H.
    - eapply steady_forget; [|exact H]. unfold run_loop.
      apply steady_bind; [apply steady_print|]. intros _. apply steady_loop_turns. }
  destruct S as (evs & -> & _). split; reflexivity.
Qed.

(** ** The cycle, step by step *)

(** What [run_once] does once the listing gave a non-empty value. *)
Lemma run_once_after_listing (w : world) (rsp : response) (gigs : pyval) (n : Z) :
  net (trace w ++ banner w) (browse_request (self w) "open") = Resp rsp ->
  status_code rsp = 200 ->
  body rsp = Some gigs ->
  Py.len gigs = Ok n ->
  Py.truthy gigs = true ->
  run_once net w
  = (matching_gig <- lift (find_matching_gig (self w) gigs) ;;
     (if Py.truthy matching_gig then
        title <- lift (Py.getitem matching_gig "title") ;;
        print (MsgFoundMatching title) ;;
        budget <- lift (Py.getitem matching_gig "budget_sats") ;;
        print (MsgBudget budget) ;;
        gig_id <- lift (Py.getitem matching_gig "id") ;;
        _ <- apply_to_gig net gig_id PNone ;;
        ret tt
      else ret tt) ;;
     print MsgChecking ;;
     apps <- check_applications net ;;
     items <- lift (Py.iter apps) ;;
     work_on_accepted net items)%agent
      (advance w (banner w ++ [Http (browse_request (self w) "open") (Resp rsp);
                               Print (MsgFoundGigs n "open")])).
Proof.
  intros E S B L T.
  unfold run_once. rewrite bind_get_self, !bind_print, !advance_advance. cbn [List.app].
  unfold bind at 1. unfold browse_gigs.
  cbv [bind get_self http json_of]. cbn [self disk trace advance].
  unfold banner in E. rewrite E, S, B. cbn [Z.eqb Pos.eqb ret lift]. rewrite L.
  cbv [print emit ret]. cbn [self disk trace]. rewrite T. cbn [negb].
  unfold advance, banner. cbn [self disk trace]. rewrite <- !app_assoc. reflexivity.
Qed.

(** X15: a listing answered 200 with a non-empty object or text instead of an
    array makes the cycle raise right after the listing, before any other
    request. *)
Theorem listing_not_an_array_raises (w : world) (rsp : response) (gigs : pyval) (n : Z) :
  net (trace w ++ banner w) (browse_request (self w) "open") = Resp rsp ->
  status_code rsp = 200 ->
  body rsp = Some gigs ->
  Py.len gigs = Ok n ->
  ((exists kv d, gigs = PDict (kv :: d)) \/ (exists c s, gigs = PStr (c :: s))) ->
  run_once net w
  = (Raise AttributeError,
     advance w (banner w ++ [Http (browse_request (self w) "open") (Resp rsp);
                             Print (MsgFoundGigs n "open")])).
Proof.
  intros E S B L G.
  rewrite (run_once_after_listing w rsp gigs n E S B L)
    by (destruct G as [(kv & d & ->)|(c & s & ->)]; reflexivity).
  rewrite bind_lift, (find_matching_gig_not_an_array _ _ G). reflexivity.
Qed.



(** Every cycle starts with the listing and lists once. *)
Lemma run_once_listings (w : world) (r : result unit) (w' : world) :
  run_once net w = (r, w') ->
  exists evs,
    w' = advance w evs
    /\ count is_listing (exchanges evs) = 1%nat
    /\ count is_registration (exchanges evs) = 0%nat
    /\ exists rep rest, exchanges evs = (browse_request (self w) "open", rep) :: rest.
Proof.
  intros H. apply run_once_run in H as (evs & -> & Sh).
  exists evs. split; [reflexivity|].
  destruct Sh as [rep | rep g rep' N | rep applied rep_c ds A F S].
  - unfold count. cbn. eauto.
  - unfold count. cbn [filter fst]. cbn. eauto.
  - split; [|split; [|eauto]].
    + change ((browse_request (self w) "open", rep)
                :: applied ++ (applications_request (self w), rep_c) :: ds)%list
        with ([(browse_request (self w) "open", rep)]
                ++ applied ++ [(applications_request (self w), rep_c)] ++ ds)%list.
      rewrite !count_app, (count_deliveries _ (self w) ds) by (assumption || reflexivity).
      destruct A as [-> | (g & rep' & ->)]; reflexivity.
    + change ((browse_request (self w) "open", rep)
                :: applied ++ (applications_request (self w), rep_c) :: ds)%list
        with ([(browse_request (self w) "open", rep)]
                ++ applied ++ [(applications_request (self w), rep_c)] ++ ds)%list.
      rewrite !count_app, (count_deliveries _ (self w) ds) by (assumption || reflexivity).
      destruct A as [-> | (g & rep' & ->)]; unfold count; cbn [filter fst].
      * reflexivity.
      * assert (E : is_registration (apply_request (self w) g PNone) = false) by reflexivity.
        rewrite E. reflexivity.
Qed.

(** X18: the requests of one cycle, whatever its outcome: the listing first and
    once, at most one application, at most one listing of the applications. *)
Theorem cycle_requests (w : world) :
  let exs := exchanges (events_since w (snd (run_once net w))) in
  (exists rep rest, exs = (browse_request (self w) "open", rep) :: rest)
  /\ count is_listing exs = 1%nat
  /\ (count is_application_post exs <= 1)%nat
  /\ (count is_applications_listing exs <= 1)%nat.
Proof.
  destruct (run_once net w) as [r w'] eqn:H.
  apply run_once_run in H as (evs & -> & Sh).
  cbn [snd]. rewrite events_since_advance. cbn zeta.
  destruct Sh as [rep | rep g rep' N | rep applied rep_c ds A F S].
  - split; [eauto|]. unfold count. cbn. split; [reflexivity|split; lia].
  - split; [eauto|]. unfold count. cbn [filter fst].
    rewrite apply_is_application_post. cbn. split; [reflexivity|split; lia].
  - split; [eauto|].
    change ((browse_request (self w) "open", rep)
              :: applied ++ (applications_request (self w), rep_c) :: ds)%list
      with ([(browse_request (self w) "open", rep)]
              ++ applied ++ [(applications_request (self w), rep_c)] ++ ds)%list.
    rewrite !count_app.
    rewrite !(count_deliveries _ (self w) ds) by (assumption || reflexivity).
    destruct A as [-> | (g & rep' & ->)]; unfold count; cbn [filter fst];
      rewrite ?apply_is_application_post; cbn; (split; [reflexivity|split; lia]).
Qed.

(** One application, whatever the outcome: no deliverable, or the one of a
    fulfillable application. *)
Lemma work_on_posts (app : pyval) (w : world) (r : result unit) (w' : world) :
  work_on net app w = (r, w') ->
  exists evs,
    w' = advance w evs
    /\ ((submitted (exchanges evs) = [] /\ (r = Ok tt -> fulfillable app = false))
        \/ (fulfillable app = true /\ submitted (exchanges evs) = [embedded_gig_id app])).
Proof.
  unfold work_on, do_work, submit_deliverable, sleep. intros H.
  unfold_monad H. cbn [self disk trace Z.ltb Z.compare] in H.
  unfold_monad H. cbn [self disk trace] in H.
  unfold fulfillable, is_accepted, embedded_gig_id.
  split_run H; inversion H; subst; clear H;
    repeat match goal with
           | E : ?x = _ |- context [?x] => rewrite E
           end;
    cbn [andb];
    try solve [ exists []; split; [now rewrite advance_nil|];
                left; split; [reflexivity|intros; try discriminate; reflexivity]
              | unfold advance; cbn [self disk trace]; repeat rewrite <- app_assoc;
                cbn [List.app];
                eexists; split; [reflexivity|]; cbn [exchanges];
                first [ right; split; reflexivity
                      | left; split; [reflexivity|intros; try discriminate; reflexivity] ] ].
Qed.

(** The deliverables posted by the loop, whatever its outcome, are those of the
    first fulfillable applications. *)
Lemma work_on_accepted_prefix (apps : list pyval) :
  forall (w : world) (r : result unit) (w' : world),
    work_on_accepted net apps w = (r, w') ->
    exists n,
      submitted (exchanges (events_since w w'))
      = firstn n (map embedded_gig_id (filter fulfillable apps)).
Proof.
  induction apps as [|a apps IH]; intros w r w' H.
  - inversion H; subst. exists 0%nat.
    rewrite <- (advance_nil w') at 2. now rewrite events_since_advance.
  - cbn [work_on_accepted] in H.
    apply bind_inv in H as [(x & w1 & H1 & H2) | (e & H1 & ->)].
    + apply work_on_posts in H1 as (e1 & -> & P).
      pose proof H2 as H3.
      apply work_on_accepted_run in H3 as (e2 & -> & _).
      destruct (IH _ _ _ H2) as (n & En).
      rewrite events_since_advance in En.
      rewrite advance_advance, events_since_advance, exchanges_app, submitted_app, En.
      cbn [filter]. destruct P as [(S0 & Nf)|(Yf & S1)].
      * rewrite S0. destruct x. rewrite (Nf eq_refl). exists n. reflexivity.
      * rewrite S1, Yf. exists (S n). reflexivity.
    + apply work_on_posts in H1 as (e1 & -> & P).
      rewrite events_since_advance. cbn [filter].
      destruct P as [(S0 & _)|(Yf & S1)].
      * rewrite S0. exists 0%nat. reflexivity.
      * rewrite S1, Yf. exists 1%nat. reflexivity.
Qed.

Lemma check_applications_failed (w : world) (r : result pyval) (w' : world) :
  check_applications net w = (r, w') ->
  exists rep rest,
    w' = advance w (Http (applications_request (self w)) rep :: rest)
    /\ exchanges rest = []
    /\ (forall apps data, r = Ok apps -> rep = Resp (mkResponse 200 (Some data)) ->
        Py.get data "applications" (PList []) = Ok apps)
    /\ ((forall data, rep <> Resp (mkResponse 200 (Some data))) ->
        forall apps, r = Ok apps -> apps = PList []).
Proof.
  unfold check_applications. intros H. unfold_monad H. cbn [self disk trace] in H.
  split_run H; close_run H; do 2 eexists;
    (split; [reflexivity|split; [reflexivity|split]]);
    try (intros apps data E1 E2; inversion E1; inversion E2; subst;
         cbn [status_code body] in *; try discriminate; congruence);
    try (intros N apps E1; inversion E1; subst; try reflexivity).
  all: exfalso; apply Z.eqb_eq in Heqb;
    match goal with
    | Hb : body ?r = Some ?d |- _ => apply (N d); destruct r; cbn in *; congruence
    end.
Qed.

Lemma run_once_progress (w : world) (r : result unit) (w' : world) :
  run_once net w = (r, w') ->
  exists evs, w' = advance w evs /\ cycle_progress (self w) (exchanges evs).
Proof.
  unfold run_once. rewrite bind_get_self, !bind_print, !advance_advance. cbn [List.app].
  intros H.
  apply bind_inv in H as [(gigs & w1 & Hb & H) | (e & Hb & ->)];
    apply browse_gigs_run in Hb as (rep & rest & -> & Ex);
    rewrite ?advance_advance in *; cbn [List.app self advance] in *.
  2: { eexists. split; [reflexivity|]. norm_ex. rewrite Ex. constructor. }
  destruct (negb (Py.truthy gigs)).
  { rewrite bind_print in H. inversion H; subst. rewrite advance_advance.
    eexists. split; [reflexivity|]. norm_ex. rewrite Ex. constructor. }
  rewrite bind_lift in H.
  destruct (find_matching_gig (self w) gigs) as [mg|e].
  2: { inversion H; subst. eexists. split; [reflexivity|]. norm_ex.
       rewrite Ex. constructor. }
  apply bind_inv in H as [(x & w2 & Ha & H) | (e & Ha & ->)];
    apply apply_step_run in Ha as (ea & -> & Ea);
    rewrite ?advance_advance in *; cbn [List.app self advance] in *.
  2: { eexists. split; [reflexivity|].
       norm_ex; rewrite ?Ex, ?app_nil_r, <- ?app_assoc; cbn [List.app].
       destruct Ea as [-> | (gig_id & rep' & -> & C)]; constructor. }
  rewrite bind_print, advance_advance in H.
  apply bind_inv in H as [(apps & w3 & Hc & H) | (e & Hc & ->)];
    apply check_applications_failed in Hc as (rep_c & rest_c & -> & Exc & C & C0);
    rewrite ?advance_advance in *; cbn [List.app self advance] in *.
  2: { eexists. split; [reflexivity|].
       norm_ex; rewrite ?Ex, ?Exc, ?app_nil_r, <- ?app_assoc; cbn [List.app].
       apply progress_checked; [|constructor| |reflexivity].
       - destruct Ea as [-> | (gig_id & rep' & -> & _)]; cbn [List.app]; eauto.
       - intros. exists 0%nat. reflexivity. }
  rewrite bind_lift in H.
  destruct (Py.iter apps) as [items|e] eqn:Ei.
  2: { inversion H; subst. eexists. split; [reflexivity|].
       norm_ex; rewrite ?Ex, ?Exc, ?app_nil_r, <- ?app_assoc; cbn [List.app].
       apply progress_checked; [|constructor| |reflexivity].
       - destruct Ea as [-> | (gig_id & rep' & -> & _)]; cbn [List.app]; eauto.
       - intros. exists 0%nat. reflexivity. }
  pose proof H as H0.
  apply work_on_accepted_run in H as (ew & -> & Fw & _).
  destruct (work_on_accepted_prefix _ _ _ _ H0) as (n & En).
  rewrite events_since_advance in En.
  rewrite advance_advance. cbn [self advance] in *.
  eexists. split; [reflexivity|].
  norm_ex; rewrite ?Ex, ?Exc, ?app_nil_r, <- ?app_assoc; cbn [List.app].
  apply progress_checked; [| assumption | |].
  - destruct Ea as [-> | (gig_id & rep' & -> & _)]; cbn [List.app]; eauto.
  - intros data items' E Eg.
    rewrite (C apps data eq_refl E) in Eg. inversion Eg; subst.
    cbn [Py.iter] in Ei. inversion Ei; subst. eauto.
  - intros N. rewrite (C0 N apps eq_refl) in Ei. cbn in Ei. inversion Ei; subst.
    cbn in H0. inversion H0 as [[Er Ew]]. apply app_same in Ew. now subst.
Qed.

(** X19: the deliverables of a cycle, whatever its outcome: after an applications
    listing answered with a list, they are those of its first fulfillable
    applications, in order and once each; without such an answer there is
    none. *)
Theorem deliverables_only_as_listed (w : world) :
  let exs := exchanges (events_since w (snd (run_once net w))) in
  (forall data apps,
     In (applications_request (self w), Resp (mkResponse 200 (Some data))) exs ->
     Py.get data "applications" (PList []) = Ok (PList apps) ->
     exists n, submitted exs = firstn n (map embedded_gig_id (filter fulfillable apps)))
  /\ ((forall data,
         ~ In (applications_request (self w), Resp (mkResponse 200 (Some data))) exs) ->
      submitted exs = []).
Proof.
  destruct (run_once net w) as [r w'] eqn:H.
  apply run_once_progress in H as (evs & -> & Sh).
  cbn [snd]. rewrite events_since_advance. cbn zeta.
  destruct Sh as [rep | rep g rep' | rep applied rep_c ds A F S Z0].
  - split; [|reflexivity]. intros data apps [E|[]] _.
    apply pair_equal_spec in E as [E1 _]. now apply browse_is_not_applications in E1.
  - split; [|reflexivity]. intros data apps [E|[E|[]]] _;
      apply pair_equal_spec in E as [E1 _].
    + now apply browse_is_not_applications in E1.
    + symmetry in E1. now apply applications_is_not_apply in E1.
  - rewrite submitted_deliveries_only by assumption. split.
    + intros data apps Hin Hg. destruct Hin as [E|Hin].
      { apply pair_equal_spec in E as [E1 _]. now apply browse_is_not_applications in E1. }
      apply in_app_or in Hin as [Hin|[E|Hin]].
      * destruct A as [-> | (g & rep' & ->)]; [destruct Hin|].
        destruct Hin as [E|[]]. apply pair_equal_spec in E as [E1 _].
        symmetry in E1. now apply applications_is_not_apply in E1.
      * apply pair_equal_spec in E as [_ E2]. now apply (S data apps).
      * rewrite Forall_forall in F. destruct (F _ Hin) as (g & c & E).
        cbn [fst] in E. symmetry in E. now apply delivery_is_not_applications in E.
    + intros N. rewrite Z0; [reflexivity|].
      intros data E. apply (N data). right. apply in_or_app. right. left. now rewrite E.
Qed.

(** ** The loop and the entry point *)





Lemma did_app (c1 c2 : list main_event) : did (c1 ++ c2) = (did c1 ++ did c2)%list.
Proof.
  induction c1 as [|[l|e] c1 IH]; cbn; [reflexivity|exact IH|now rewrite IH].
Qed.

Lemma did_map (evs : list event) : did (map Did evs) = evs.
Proof. induction evs as [|e evs IH]; cbn; [reflexivity|now rewrite IH]. Qed.

Lemma init_run (name0 : string) (caps : list string) (w : world) (r : result unit) (w1 : world) :
  __init__ name0 caps w = (r, w1) ->
  disk w1 = disk w
  /\ exists evs, trace w1 = (trace w ++ evs)%list /\ exchanges evs = [].
Proof.
  unfold __init__, _load_state. intros H. unfold_monad H. cbn [self disk trace] in H.
  split_run H; inversion H; subst; clear H; cbn [disk trace];
    (split; [congruence|]);
    first [ exists []; split; [now rewrite app_nil_r|reflexivity]
          | eexists; split; reflexivity ].
Qed.

(** [main], one call after the other. *)
Lemma main_run (AGENT_NAME : string) (p : process) :
  main net AGENT_NAME p
  = let w := agent_world p in
    let c0 := (console p ++ [Said SaidBanner])%list in
    match __init__ AGENT_NAME CAPABILITIES w with
    | (Raise e, w1) => (Raise e, mkProcess w1 (c0 ++ map Did (events_since w w1)))
    | (Ok _, w1) =>
        let c1 := (c0 ++ map Did (events_since w w1))%list in
        match register net w1 with
        | (Raise e, w2) => (Raise e, mkProcess w2 (c1 ++ map Did (events_since w1 w2)))
        | (Ok false, w2) =>
            (Ok tt, mkProcess w2 ((c1 ++ map Did (events_since w1 w2))
                                    ++ [Said SaidFailedToRegister]))
        | (Ok true, w2) =>
            let c2 := (c1 ++ map Did (events_since w1 w2))%list in
            match run_once net w2 with
            | (Raise e, w3) => (Raise e, mkProcess w3 (c2 ++ map Did (events_since w2 w3)))
            | (Ok _, w3) =>
                (Ok tt, mkProcess w3 ((((c2 ++ map Did (events_since w2 w3))
                                          ++ [Said SaidRuleAbove]) ++ [Said SaidDone])
                                        ++ [Said SaidRuleBelow]))
            end
        end
    end.
Proof.
  unfold main, pbind, say, call, pret. cbn [agent_world console].
  destruct (__init__ AGENT_NAME CAPABILITIES (agent_world p)) as [[u|e] w1];
    cbn [agent_world console]; [|reflexivity].
  destruct (register net w1) as [[[|]|e] w2]; cbn [agent_world console negb];
    [|reflexivity|reflexivity].
  destruct (run_once net w2) as [[u'|e] w3]; reflexivity.
Qed.

Lemma shown_since_app (p : process) (w : world) (c : list main_event) :
  shown_since p (mkProcess w (console p ++ c)) = c.
Proof. unfold shown_since. cbn [console]. apply skipn_length_app. Qed.

(** X21: [main] registers at most once and lists the gigs at most once: it runs
    one cycle at most, whatever happens. *)
Theorem main_runs_at_most_one_cycle (AGENT_NAME : string) (p : process) :
  let exs := exchanges (did (shown_since p (snd (main net AGENT_NAME p)))) in
  (count is_registration exs <= 1)%nat /\ (count is_listing exs <= 1)%nat.
Proof.
  rewrite main_run. cbn zeta.
  destruct (__init__ AGENT_NAME CAPABILITIES (agent_world p)) as [[u|e] w1] eqn:Hi;
    apply init_run in Hi as (_ & ei & Ei & Xi);
    apply events_since_grow in Ei; rewrite Ei.
  2: { cbn [snd]. rewrite <- !app_assoc, shown_since_app.
       cbn [List.app did]. rewrite did_map, Xi. unfold count. cbn. lia. }
  assert (Rn : forall rep,
             count is_registration [(register_request (self w1), rep)] = 1%nat
             /\ count is_listing [(register_request (self w1), rep)] = 0%nat)
    by (intros rep; split; reflexivity).
  destruct (register net w1) as [[[|]|e] w2] eqn:Hr;
    apply register_run in Hr as (er & Er & Xr);
    apply events_since_grow in Er; rewrite Er.
  - destruct (run_once net w2) as [[u'|e] w3] eqn:Hc;
      apply run_once_listings in Hc as (ec & -> & L & R & _);
      rewrite events_since_advance; cbn [snd];
      rewrite <- !app_assoc, shown_since_app;
      cbn [List.app did]; rewrite !did_app, !did_map; cbn [did];
      rewrite ?app_nil_r, !exchanges_app, !count_app, Xi, L, R;
      destruct Xr as [-> | (rep & ->)]; try destruct (Rn rep) as [-> ->];
      unfold count; cbn; lia.
  - cbn [snd]. rewrite <- !app_assoc, shown_since_app.
    cbn [List.app did]. rewrite !did_app, !did_map. cbn [did].
    rewrite ?app_nil_r, !exchanges_app, !count_app, Xi.
    destruct Xr as [-> | (rep & ->)]; try destruct (Rn rep) as [-> ->];
      unfold count; cbn; lia.
  - cbn [snd]. rewrite <- !app_assoc, shown_since_app.
    cbn [List.app did]. rewrite !did_app, !did_map.
    rewrite ?app_nil_r, !exchanges_app, !count_app, Xi.
    destruct Xr as [-> | (rep & ->)]; try destruct (Rn rep) as [-> ->];
      unfold count; cbn; lia.
Qed.

(** X22: [main] over a state file that holds a key: no registration request, the
    state file is kept, and the first request is the listing, with the stored
    key in its headers. *)
Theorem main_with_stored_key (AGENT_NAME : string) (p : process)
    (d : list (string * pyval)) (k : pyval) :
  disk (agent_world p) = Stored (PDict d) ->
  Py.lookup "api_key" d = Some k ->
  Py.truthy k = true ->
  let p' := snd (main net AGENT_NAME p) in
  let exs := exchanges (did (shown_since p p')) in
  disk (agent_world p') = disk (agent_world p)
  /\ api_key (self (agent_world p')) = k
  /\ count is_registration exs = 0%nat
  /\ exists req rep rest,
       exs = (req, rep) :: rest
       /\ is_listing req = true
       /\ carries_key k req.
Proof.
  intros D K T. rewrite main_run. cbn zeta.
  destruct (load_state_reads_key AGENT_NAME CAPABILITIES (agent_world p) d k D K)
    as (a & -> & Ka & _).
  assert (Ta : Py.truthy (api_key a) = true) by now rewrite Ka.
  rewrite register_known by exact Ta.
  rewrite (events_since_grow (agent_world p)
             (mkWorld a (disk (agent_world p))
                (trace (agent_world p) ++ [Print (MsgLoaded (name a))])
                (served (agent_world p)))
             [Print (MsgLoaded (name a))] eq_refl).
  rewrite events_since_advance. cbn [self advance disk trace].
  match goal with
  | |- context [run_once net ?w0] => destruct (run_once net w0) as [r w3] eqn:Hc
  end.
  apply run_once_listings in Hc as (ec & -> & L & R & rep & rest & Ec).
  rewrite events_since_advance. cbn [self] in Ec.
  assert (C : carries_key k (browse_request a "open")).
  { unfold carries_key, browse_request, _headers. cbn [headers]. rewrite Ta, Ka.
    right. left. reflexivity. }
  destruct r as [u|e]; cbn [snd agent_world];
    (split; [reflexivity|split; [exact Ka|]]);
    rewrite <- !app_assoc, shown_since_app;
    cbn [List.app map did]; rewrite ?did_app, ?did_map; cbn [did exchanges];
    rewrite ?app_nil_r, ?exchanges_app; cbn [exchanges]; rewrite ?app_nil_r;
    (split; [exact R|]); rewrite Ec; exists (browse_request a "open"), rep, rest;
    (split; [reflexivity|]); (split; [reflexivity|exact C]).
Qed.


End Methods.


(** ** More instances *)

Lemma register_outcomes_witness :
  (self (snd (register Fixture.refusing Sample.newcomer)) = self Sample.newcomer
   /\ disk (snd (register Fixture.refusing Sample.newcomer)) = disk Sample.newcomer)
  /\ name (self (snd (register Sample.registrar Sample.newcomer))) = name (self Sample.newcomer).
Proof.
  split.
  - apply (proj1 (register_outcomes Fixture.refusing Sample.newcomer (Ok false) _ eq_refl)).
    reflexivity.
  - apply (proj1 (proj2 (register_outcomes Sample.registrar Sample.newcomer
                           (fst (register Sample.registrar Sample.newcomer)) _ eq_refl))).
Defined.

Lemma register_answer_without_user_witness :
  exists w',
    register Fixture.key_only Sample.newcomer = (Raise KeyError, w')
    /\ api_key (self w') = PStr "sk-3"
    /\ user_id (self w') = user_id (self Sample.newcomer)
    /\ disk w' = disk Sample.newcomer.
Proof.
  apply (register_answer_without_user Fixture.key_only Sample.newcomer
           (mkResponse 201 (Some (PDict [("api_key", PStr "sk-3")])))
           (PDict [("api_key", PStr "sk-3")])).
  - reflexivity.
  - reflexivity.
  - reflexivity.
  - reflexivity.
  - reflexivity.
  - reflexivity.
Defined.

Lemma register_requests_witness :
  exists rep,
    exchanges (events_since Sample.newcomer (snd (register Sample.registrar Sample.newcomer)))
    = [(register_request (self Sample.newcomer), rep)]
    /\ headers (register_request (self Sample.newcomer))
       = [("Content-Type", PStr "application/json")].
Proof.
  apply (proj2 (register_requests Sample.registrar Sample.newcomer
                  (fst (register Sample.registrar Sample.newcomer)) _ eq_refl)).
  reflexivity.
Defined.

Lemma browse_gigs_gives_a_sized_value_witness :
  browse_gigs Fixture.counting "open" Sample.fresh
  = (Raise TypeError,
     advance Sample.fresh
       [Http (browse_request (self Sample.fresh) "open")
          (Resp (mkResponse 200 (Some (PInt 3))))]).
Proof.
  apply (proj2 (browse_gigs_gives_a_sized_value Fixture.counting "open" Sample.fresh)
           (mkResponse 200 (Some (PInt 3))) (PInt 3)).
  - reflexivity.
  - reflexivity.
  - reflexivity.
  - right. right. exists 3. reflexivity.
Defined.


Lemma check_applications_needs_objects_witness :
  check_applications Fixture.empty_array Sample.fresh
  = (Raise AttributeError,
     advance Sample.fresh
       [Http (applications_request (self Sample.fresh))
          (Resp (mkResponse 200 (Some (PList []))))]).
Proof.
  apply (check_applications_needs_objects Fixture.empty_array Sample.fresh
           (mkResponse 200 (Some (PList []))) (PList [])).
  - reflexivity.
  - reflexivity.
  - reflexivity.
  - left. intros d. discriminate.
Defined.



Lemma only_registration_changes_identity_witness :
  self (snd (perform Sample.registrar (OpLoop 2 300) Sample.newcomer)) = self Sample.newcomer
  /\ disk (snd (perform Sample.registrar (OpLoop 2 300) Sample.newcomer)) = disk Sample.newcomer.
Proof.
  apply (only_registration_changes_identity Sample.registrar (OpLoop 2 300) Sample.newcomer
           (fst (perform Sample.registrar (OpLoop 2 300) Sample.newcomer))).
  - discriminate.
  - vm_compute. reflexivity.
Defined.

Lemma listing_not_an_array_raises_witness :
  run_once Fixture.error_object Sample.fresh
  = (Raise AttributeError,
     advance Sample.fresh
       (banner Sample.fresh
          ++ [Http (browse_request (self Sample.fresh) "open")
                (Resp (mkResponse 200 (Some (PDict [("error", PStr "maintenance")]))));
              Print (MsgFoundGigs 1 "open")])).
Proof.
  apply (listing_not_an_array_raises Fixture.error_object Sample.fresh
           (mkResponse 200 (Some (PDict [("error", PStr "maintenance")])))
           (PDict [("error", PStr "maintenance")]) 1).
  - reflexivity.
  - reflexivity.
  - reflexivity.
  - reflexivity.
  - left. exists ("error", PStr "maintenance"), []. reflexivity.
Defined.



Lemma deliverables_only_as_listed_witness :
  exists n,
    submitted (exchanges (events_since Sample.fresh
                 (snd (run_once (Sample.market Sample.applications Sample.no_content)
                         Sample.fresh))))
    = firstn n (map embedded_gig_id (filter fulfillable Sample.applications)).
Proof.
  apply (proj1 (deliverables_only_as_listed
                  (Sample.market Sample.applications Sample.no_content) Sample.fresh)
           (PDict [("applications", PList Sample.applications)])).
  - vm_compute. right. right. left. reflexivity.
  - reflexivity.
Defined.



Lemma main_with_stored_key_witness :
  disk (agent_world (snd (main (Sample.market [] Sample.created) "ExampleAgent-qq00"
                            Fixture.restart)))
  = disk (agent_world Fixture.restart)
  /\ api_key (self (agent_world (snd (main (Sample.market [] Sample.created)
                                        "ExampleAgent-qq00" Fixture.restart))))
     = PStr "sk-1"
  /\ count is_registration
       (exchanges (did (shown_since Fixture.restart
                          (snd (main (Sample.market [] Sample.created) "ExampleAgent-qq00"
                                  Fixture.restart)))))
     = 0%nat
  /\ exists req rep rest,
       exchanges (did (shown_since Fixture.restart
                         (snd (main (Sample.market [] Sample.created) "ExampleAgent-qq00"
                                 Fixture.restart))))
       = (req, rep) :: rest
       /\ is_listing req = true
       /\ carries_key (PStr "sk-1") req.
Proof.
  apply (main_with_stored_key (Sample.market [] Sample.created) "ExampleAgent-qq00"
           Fixture.restart
           [("api_key", PStr "sk-1"); ("user_id", PStr "u1"); ("name", PStr "ExampleAgent-a1b2")]
           (PStr "sk-1")).
  - reflexivity.
  - reflexivity.
  - reflexivity.
Defined.

